(** * python-kasa: feature registry, bulb facade, energy statistics, light strips

    A shallow embedding of the parts of [kasa/module.py],
    [kasa/smart/smartbulb.py], [kasa/iot/modules/emeter.py] and
    [kasa/iot/iotlightstrip.py] that carry the library's capability and
    conversion logic, followed by the properties proved about them.

    Python objects are modelled as follows.
    - [dict] with string keys: [gmap string _]; a [dict] whose insertion
      order and key equality matter (the result of [_convert_stat_data]):
      an association list updated by [dict_set].
    - [int]: [Z]; [float]: Rocq's primitive binary64 [float], which is the
      format of a CPython float.
    - raising: the [Raise] branch of [result]; code that also changes state
      runs in [M St], where a raise keeps the state reached so far.
    - [str]: [string]; the model is exact on ASCII text ([lower] leaves
      other bytes as they are). *)

From Stdlib Require Import ZArith Floats Ascii.
From Stdlib Require String.
From stdpp Require Import gmap strings list.

#[local] Set Warnings "-register-all".
Open Scope Z_scope.

(* ===================================================================== *)
(** * Part I: definitions                                                 *)
(* ===================================================================== *)

(** ** Python numbers *)

(** [int | float], the annotated type of the values of a statistics
    record. *)
Inductive num :=
| NInt (z : Z)
| NFloat (f : float).

(** ** Python values

    The values found in a device info blob and passed as arguments:
    [None], [bool], numbers, [str] and [list]. *)
Inductive value :=
| VNone
| VBool (b : bool)
| VNum (n : num)
| VStr (s : string)
| VList (l : list value).

Abbreviation VInt z := (VNum (NInt z)).

(** ** Exceptions and results *)

(** The exception classes the modelled code raises.  A message built by
    an f-string is kept as its text around the hole ([what]) together with
    the interpolated argument ([got]) instead of the argument's rendering. *)
Inductive exn :=
| KasaException (msg : string)
| ValueError (what : string) (got : value)
| KeyError (key : string)
| IndexError
| TypeError
| OverflowError
| TransportError (msg : string).

Inductive result (A : Type) :=
| Ok (a : A)
| Raise (e : exn).
Arguments Ok {A} a.
Arguments Raise {A} e.

#[global] Instance result_ret : MRet result := @Ok.
#[global] Instance result_bind : MBind result := fun A B f m =>
  match m with
  | Ok a => f a
  | Raise e => Raise e
  end.

(** State and exceptions: a computation from a state to a result and the
    state it leaves.  A raise does not roll the state back. *)
Definition M (St A : Type) : Type := St -> result A * St.

Definition ret {St A} (a : A) : M St A := fun s => (Ok a, s).
Definition raise {St A} (e : exn) : M St A := fun s => (Raise e, s).
Definition bind {St A B} (m : M St A) (k : A -> M St B) : M St B :=
  fun s => match m s with
           | (Ok a, s') => k a s'
           | (Raise e, s') => (Raise e, s')
           end.
Definition lift {St A} (r : result A) : M St A := fun s => (r, s).
Definition get_state {St} : M St St := fun s => (Ok s, s).
Definition modify {St} (f : St -> St) : M St unit := fun s => (Ok tt, f s).

#[global] Instance M_ret St : MRet (M St) := @ret St.
#[global] Instance M_bind St : MBind (M St) := fun A B k m => bind m k.

(** ** Number operations *)

(** [float(z)] for an [int]: rounding to nearest, ties to even, and
    [OverflowError] when the integer is too large for a float. *)
Definition float_of_int (z : Z) : result float :=
  let f := SF2Prim (binary_normalize prec emax z 0 false) in
  if is_infinity f then Raise OverflowError else Ok f.

(** [a * b] on numbers: exact on two ints, binary64 once a float is
    involved. *)
Definition num_mul (a b : num) : result num :=
  match a, b with
  | NInt x, NInt y => Ok (NInt (x * y))
  | NInt x, NFloat g => f ← float_of_int x; Ok (NFloat (f * g)%float)
  | NFloat f, NInt y => g ← float_of_int y; Ok (NFloat (f * g)%float)
  | NFloat f, NFloat g => Ok (NFloat (f * g)%float)
  end.

(** [z == f] for an int and a float: Python compares the exact values. *)
Definition int_float_eqb (z : Z) (f : float) : bool :=
  match Prim2SF f with
  | S754_zero _ => z =? 0
  | S754_finite s m e =>
      let sm := if s then Z.neg m else Z.pos m in
      if 0 <=? e then z =? sm * 2 ^ e else z * 2 ^ (- e) =? sm
  | S754_infinity _ | S754_nan => false
  end.

(** [a == b] on numbers. *)
Definition num_eqb (a b : num) : bool :=
  match a, b with
  | NInt x, NInt y => x =? y
  | NInt x, NFloat g => int_float_eqb x g
  | NFloat f, NInt y => int_float_eqb y f
  | NFloat f, NFloat g => (f =? g)%float
  end.

(** ** Value operations *)

(** [v is None] *)
Definition is_none (v : value) : bool :=
  match v with
  | VNone => true
  | _ => false
  end.

(** [isinstance(v, int)]; [bool] is a subclass of [int]. *)
Definition isinstance_int (v : value) : bool :=
  match v with
  | VBool _ | VNum (NInt _) => true
  | _ => false
  end.

(** The number a value is in a comparison, when it is one. *)
Definition as_num (v : value) : option num :=
  match v with
  | VBool b => Some (NInt (if b then 1 else 0))
  | VNum n => Some n
  | _ => None
  end.

Definition as_int (v : value) : option Z :=
  match v with
  | VBool b => Some (if b then 1 else 0)
  | VNum (NInt z) => Some z
  | _ => None
  end.

(** [v == w].  Lists compare element by element by [==].  Python first
    tests two items for identity, which changes the answer only when both
    lists hold the very same NaN object; that case is not modelled. *)
Fixpoint py_eq (v w : value) : bool :=
  match v, w with
  | VNone, VNone => true
  | VStr a, VStr b => String.eqb a b
  | VList a, VList b =>
      (fix go (a b : list value) : bool :=
         match a, b with
         | [], [] => true
         | x :: a', y :: b' => py_eq x y && go a' b'
         | _, _ => false
         end) a b
  | _, _ =>
      match as_num v, as_num w with
      | Some a, Some b => num_eqb a b
      | _, _ => false
      end
  end.

(** [lo <= v <= hi], used only behind [isinstance(v, int)]. *)
Definition int_between (lo hi : Z) (v : value) : bool :=
  match as_int v with
  | Some z => (lo <=? z) && (z <=? hi)
  | None => false
  end.

(** [v[i]] for an index [i >= 0]. *)
Definition getitem (v : value) (i : nat) : result value :=
  match v with
  | VList l => match l !! i with
               | Some x => Ok x
               | None => Raise IndexError
               end
  | VStr s => match String.get i s with
              | Some c => Ok (VStr (String c EmptyString))
              | None => Raise IndexError
              end
  | _ => Raise TypeError
  end.

(** [z < f] for an int and a float, on the exact values. *)
Definition int_float_ltb (z : Z) (f : float) : bool :=
  match Prim2SF f with
  | S754_zero _ => z <? 0
  | S754_finite s m e =>
      let sm := if s then Z.neg m else Z.pos m in
      if 0 <=? e then z <? sm * 2 ^ e else z * 2 ^ (- e) <? sm
  | S754_infinity s => negb s
  | S754_nan => false
  end.

(** [f < z] for a float and an int, on the exact values. *)
Definition float_int_ltb (f : float) (z : Z) : bool :=
  match Prim2SF f with
  | S754_zero _ => 0 <? z
  | S754_finite s m e =>
      let sm := if s then Z.neg m else Z.pos m in
      if 0 <=? e then sm * 2 ^ e <? z else sm <? z * 2 ^ (- e)
  | S754_infinity s => s
  | S754_nan => false
  end.

(** [a < b] on numbers. *)
Definition num_ltb (a b : num) : bool :=
  match a, b with
  | NInt x, NInt y => x <? y
  | NInt x, NFloat g => int_float_ltb x g
  | NFloat f, NInt y => float_int_ltb f y
  | NFloat f, NFloat g => (f <? g)%float
  end.

(** [v < w]: numbers by value, strings and lists lexicographically (a
    list by its first pair of unequal items), [TypeError] for any other
    pair of types. *)
Fixpoint py_lt (v w : value) : result bool :=
  match v, w with
  | VStr a, VStr b => Ok (String.ltb a b)
  | VList a, VList b =>
      (fix go (a b : list value) : result bool :=
         match a, b with
         | [], [] => Ok false
         | [], _ :: _ => Ok true
         | _ :: _, [] => Ok false
         | x :: a', y :: b' => if py_eq x y then go a' b' else py_lt x y
         end) a b
  | _, _ =>
      match as_num v, as_num w with
      | Some a, Some b => Ok (num_ltb a b)
      | _, _ => Raise TypeError
      end
  end.

(** [v > w], which the built-in types decide as [w < v]. *)
Definition py_gt (v w : value) : result bool := py_lt w v.

(** [d.get(k)] and [d.get(k, default)] on a blob. *)
Definition dict_get_default (d : gmap string value) (k : string)
    (default : value) : value :=
  match d !! k with
  | Some v => v
  | None => default
  end.

(** [d[k]] on a string-keyed dict. *)
Definition dict_item {A} (d : gmap string A) (k : string) : result A :=
  match d !! k with
  | Some v => Ok v
  | None => Raise (KeyError k)
  end.

(** ** Strings *)

(** [c.lower()] on an ASCII character: a capital A-Z gives its small
    letter, any other character itself.  A byte above 127 is left as it
    is. *)
Definition lower_char (c : ascii) : ascii :=
  let n := nat_of_ascii c in
  if ((65 <=? n) && (n <=? 90))%nat then ascii_of_nat (n + 32) else c.

(** [s.lower()] on ASCII text, where it is exact.  Python's [lower] also
    changes letters outside ASCII (and may change the length there); a
    property that depends on what [lower] does is stated for ASCII names,
    or in terms of the lowered name. *)
Fixpoint lower (s : string) : string :=
  match s with
  | EmptyString => EmptyString
  | String c s' => String (lower_char c) (lower s')
  end.

(** [s.replace(old, new)] for one-character [old] and [new], as at the
    call sites. *)
Fixpoint replace (old new : ascii) (s : string) : string :=
  match s with
  | EmptyString => EmptyString
  | String c s' =>
      String (if Ascii.eqb c old then new else c) (replace old new s')
  end.

(* --------------------------------------------------------------------- *)
(** ** kasa/module.py                                                     *)
(* --------------------------------------------------------------------- *)

Module KasaModule.

(** Modelled from the spec: the [Feature] class of [kasa/feature.py] is
    not among the sources; the registry reads only its [name]. *)
Inductive FeatureType := Sensor | Switch | Choice | Action.
Record Feature := {
  name : string;
  attribute : string;
  kind : FeatureType
}.

(** The fields of [Module] that [_add_feature] reads and writes. *)
Record t := {
  _module : string;
  _module_features : gmap string Feature
}.

Definition set_module_features (self : t) (fs : gmap string Feature) : t :=
  {| _module := _module self; _module_features := fs |}.

(** [name.lower().replace(" ", "_").replace("'", "_")] *)
Definition _slugified_name (name : string) : string :=
  replace "'" "_" (replace " " "_" (lower name)).

Definition _add_feature (feature : Feature) : M t unit :=
  let feat_name := _slugified_name (name feature) in
  self ← get_state;
  if decide (is_Some (_module_features self !! feat_name))
   then raise (KasaException ("Duplicate name detected " +:+ feat_name))
   else modify (fun self =>
          set_module_features self
            (<[feat_name := feature]> (_module_features self))).

(** [Module.__init__]: a module starts with an empty registry. *)
Definition __init__ (module : string) : t :=
  {| _module := module; _module_features := ∅ |}.

End KasaModule.

(* --------------------------------------------------------------------- *)
(** ** kasa/smart/smartbulb.py                                            *)
(* --------------------------------------------------------------------- *)

Module SmartBulb.

(** Modelled from the spec: the range type of [kasa/iot/iotbulb.py], which
    is not among the sources, is the pair (minimum, maximum) in Kelvin. *)
Record ColorTempRange := { min : value; max : value }.

(** What the bulb facade reads of the device: the info blob of the last
    update and the keys of the [modules] dict (the facade only asks
    whether a name is registered). *)
Record t := {
  _info : gmap string value;
  modules : gset string
}.

(** A request is a dict from a method name to its parameters. *)
Abbreviation request := (gmap string (gmap string value)).
Abbreviation response := (gmap string value).

(** Modelled from the spec: the transport collaborator's
    [query(request) -> response], which is not among the sources.
    [device] is what the other end answers (a response, or a transport or
    device error); the state of the protocol is the list of the requests
    sent so far, oldest first. *)
Definition query (device : request -> result response) (req : request)
    : M (list request) response :=
  fun sent => (device req, sent ++ [req]).

Definition is_color (self : t) : bool :=
  bool_decide (is_Some (_info self !! "hue")).

Definition is_dimmable (self : t) : bool :=
  bool_decide ("Brightness" ∈ modules self).

Definition is_variable_color_temp (self : t) : result bool :=
  let ct := dict_get_default (_info self) "color_temp_range" VNone in
  if is_none ct then Ok false
  else
    lo ← getitem ct 0;
    hi ← getitem ct 1;
    Ok (negb (py_eq lo hi)).

Definition valid_temperature_range (self : t) : result ColorTempRange :=
  variable ← is_variable_color_temp self;
  if negb variable
  then Raise (KasaException "Color temperature not supported")
  else
    let ct_range :=
      dict_get_default (_info self) "color_temp_range"
        (VList [VInt 0; VInt 0]) in
    lo ← getitem ct_range 0;
    hi ← getitem ct_range 1;
    Ok {| min := lo; max := hi |}.

Definition _raise_for_invalid_brightness (v : value) : result unit :=
  if negb (isinstance_int v) || negb (int_between 1 100 v)
  then Raise (ValueError "Invalid brightness value: {} (valid range: 1-100%)" v)
  else Ok tt.

(** [transition] is accepted and ignored, as in the source. *)
Definition set_hsv (device : request -> result response) (self : t)
    (hue saturation val transition : value) : M (list request) response :=
  if negb (is_color self)
  then raise (KasaException "Bulb does not support color.")
  else if negb (isinstance_int hue) || negb (int_between 0 360 hue)
  then raise (ValueError "Invalid hue value: {} (valid range: 0-360)" hue)
  else if negb (isinstance_int saturation)
          || negb (int_between 0 100 saturation)
  then raise (ValueError "Invalid saturation value: {} (valid range: 0-100%)"
                saturation)
  else
    (if negb (is_none val)
     then lift (_raise_for_invalid_brightness val)
     else ret tt);;
    let request_payload : gmap string value :=
      <["saturation" := saturation]>
        (<["hue" := hue]> {[ "color_temp" := VInt 0 ]}) in
    let request_payload :=
      if negb (is_none val)
      then <["brightness" := val]> request_payload
      else request_payload in
    query device {[ "set_device_info" := request_payload ]}.

Definition set_brightness (device : request -> result response) (self : t)
    (brightness transition : value) : M (list request) response :=
  if negb (is_dimmable self)
  then raise (KasaException "Bulb is not dimmable.")
  else
    lift (_raise_for_invalid_brightness brightness);;
    query device {[ "set_device_info" := {[ "brightness" := brightness ]} ]}.

(** The module-level table of effect ids and names, in source order. *)
Definition AVAILABLE_EFFECTS : list (string * string) :=
  [ ("L1", "Party"); ("L2", "Relax") ].

(** [table.get(key, "")] on a table with string keys: a list is
    unhashable, a key of another type is absent. *)
Definition effects_get (table : list (string * string)) (key : value)
    : result string :=
  match key with
  | VList _ => Raise TypeError
  | VStr s => Ok (default "" (snd <$> find (fun kv => String.eqb kv.1 s) table))
  | _ => Ok ""
  end.

Definition has_effects (self : t) : bool :=
  bool_decide (is_Some (_info self !! "dynamic_light_effect_enable")).

Definition brightness (self : t) : result value :=
  if negb (is_dimmable self)
  then Raise (KasaException "Bulb is not dimmable.")
  else Ok (dict_get_default (_info self) "brightness" (VInt (-1))).

(** The returned dict is built key by key, [brightness] first. *)
Definition effect (self : t) : result (gmap string value) :=
  let current_effect :=
    dict_get_default (_info self) "dynamic_light_effect_id" (VStr "") in
  b ← brightness self;
  let enable := negb (py_eq current_effect (VStr "")) in
  name ← effects_get AVAILABLE_EFFECTS current_effect;
  Ok (<["name" := VStr name]>
        (<["id" := current_effect]>
           (<["enable" := VBool enable]> {[ "brightness" := b ]}))).

Definition effect_list (self : t) : option (list string) :=
  if has_effects self then Some (fst <$> AVAILABLE_EFFECTS) else None.

(** The [NamedTuple] [HSV] of [kasa/iot/iotbulb.py], which is not among
    the sources: hue, saturation and value. *)
Module HSV.
Record t := { hue : value; saturation : value; value : value }.
End HSV.

Definition hsv (self : t) : result HSV.t :=
  if negb (is_color self)
  then Raise (KasaException "Bulb does not support color.")
  else
    Ok {| HSV.hue := dict_get_default (_info self) "hue" (VInt 0);
          HSV.saturation := dict_get_default (_info self) "saturation" (VInt 0);
          HSV.value := dict_get_default (_info self) "brightness" (VInt 0) |}.

Definition color_temp (self : t) : result value :=
  variable ← is_variable_color_temp self;
  if negb variable
  then Raise (KasaException "Bulb does not support colortemp.")
  else Ok (dict_get_default (_info self) "color_temp" (VInt (-1))).

(** [brightness] and [transition] are accepted and ignored, as in the
    source.  The three arguments of the message's [format] are kept as
    the list [[min, max, temp]]. *)
Definition set_color_temp (device : request -> result response) (self : t)
    (temp brightness transition : value) : M (list request) response :=
  variable ← lift (is_variable_color_temp self);
  if negb variable
  then raise (KasaException "Bulb does not support colortemp.")
  else
    valid_temperature_range ← lift (valid_temperature_range self);
    below ← lift (py_lt temp (min valid_temperature_range));
    outside ← (if below : bool then ret true
               else lift (py_gt temp (max valid_temperature_range)));
    if outside : bool
    then raise (ValueError "Temperature should be between {} and {}, was {}"
                  (VList [min valid_temperature_range;
                          max valid_temperature_range; temp]))
    else query device {[ "set_device_info" := {[ "color_temp" := temp ]} ]}.

End SmartBulb.

(* --------------------------------------------------------------------- *)
(** ** kasa/iot/modules/emeter.py                                         *)
(* --------------------------------------------------------------------- *)

Module Emeter.

(** One record of a statistics list: [dict[str, int | float]]. *)
Abbreviation record := (gmap string num).

(** The returned [dict[int | float, int | float]], in insertion order;
    two keys are the same key when they are equal as numbers. *)
Abbreviation pydict := (list (num * num)).

(** [d[k] = v]: an equal key keeps its place (and the key object first
    inserted) and takes the new value; a new key goes to the end. *)
Fixpoint dict_set (d : pydict) (k v : num) : pydict :=
  match d with
  | [] => [(k, v)]
  | (k', v') :: d' =>
      if num_eqb k' k then (k', v) :: d' else (k', v') :: dict_set d' k v
  end.

(** [d.get(k)] *)
Fixpoint dict_get (d : pydict) (k : num) : option num :=
  match d with
  | [] => None
  | (k', v) :: d' => if num_eqb k' k then Some v else dict_get d' k
  end.

(** The unit inference on the first record: the field that holds the
    energy and the factor that converts it. *)
Definition infer_unit (first : record) (kwh : bool) : string * num :=
  if decide (is_Some (first !! "energy_wh"))
  then ("energy_wh", if kwh then NFloat (1 / 1000)%float else NInt 1)
  else ("energy", if negb kwh then NInt 1000 else NInt 1).

(** [{entry[entry_key]: entry[value_key] * scale}]: the key, then the
    value. *)
Definition convert_entry (entry_key value_key : string) (scale : num)
    (entry : record) : result (num * num) :=
  k ← dict_item entry entry_key;
  v ← dict_item entry value_key;
  x ← num_mul v scale;
  Ok (k, x).

(** The comprehension over [data], filling the dict from the left. *)
Fixpoint convert_all (entry_key value_key : string) (scale : num)
    (data : list record) (acc : pydict) : result pydict :=
  match data with
  | [] => Ok acc
  | entry :: rest =>
      kv ← convert_entry entry_key value_key scale entry;
      convert_all entry_key value_key scale rest (dict_set acc kv.1 kv.2)
  end.

(** The loop [for entry in reversed(data)], given the reversed list. *)
Fixpoint find_key (entry_key value_key : string) (scale : num) (key : Z)
    (reversed : list record) : result pydict :=
  match reversed with
  | [] => Ok []
  | entry :: rest =>
      k ← dict_item entry entry_key;
      if num_eqb k (NInt key)
      then kv ← convert_entry entry_key value_key scale entry; Ok [kv]
      else find_key entry_key value_key scale key rest
  end.

Definition _convert_stat_data (data : list record) (entry_key : string)
    (kwh : bool) (key : option Z) : result pydict :=
  match data with
  | [] => Ok []
  | first :: _ =>
      let '(value_key, scale) := infer_unit first kwh in
      match key with
      | None => convert_all entry_key value_key scale data []
      | Some key => find_key entry_key value_key scale key (reverse data)
      end
  end.

(** The statistics of the last update ([daily_data] and [monthly_data]
    are properties of the parent class [Usage], which is not among the
    sources; they are the lists the device returned). *)
Record t := {
  daily_data : list record;
  monthly_data : list record
}.

(** The reading of the clock, [datetime.now()]. *)
Record datetime := { month : Z; day : Z }.

Definition emeter_today (self : t) (now : datetime) : result (option num) :=
  let raw_data := daily_data self in
  let today := day now in
  data ← _convert_stat_data raw_data "day" true (Some today);
  Ok (dict_get data (NInt today)).

Definition emeter_this_month (self : t) (now : datetime)
    : result (option num) :=
  let raw_data := monthly_data self in
  let current_month := month now in
  data ← _convert_stat_data raw_data "month" true (Some current_month);
  Ok (dict_get data (NInt current_month)).

(** [get_raw_daystat] and [get_raw_monthstat] belong to the parent class
    [Usage], which is not among the sources: [raw] is what the call
    returns for the given year and month, a reply dict or an error. *)
Definition get_daystat
    (get_raw_daystat : value -> value -> result (gmap string (list record)))
    (year month : value) (kwh : bool) : result pydict :=
  data ← get_raw_daystat year month;
  day_list ← dict_item data "day_list";
  _convert_stat_data day_list "day" kwh None.

Definition get_monthstat
    (get_raw_monthstat : value -> result (gmap string (list record)))
    (year : value) (kwh : bool) : result pydict :=
  data ← get_raw_monthstat year;
  month_list ← dict_item data "month_list";
  _convert_stat_data month_list "month" kwh None.

End Emeter.

(* --------------------------------------------------------------------- *)
(** ** kasa/iot/iotlightstrip.py                                          *)
(* --------------------------------------------------------------------- *)

Module IotLightStrip.

(** An effect definition is a Python dict, a mutable object: the store
    maps the identity of each such object to its current content, and a
    variable or a catalog entry holds an identity, not a content. *)
Abbreviation loc := positive.
Abbreviation effect := (gmap string value).

(** One call of [_query_helper(target, cmd, arg)], with the content the
    argument had when it was sent. *)
Record call := { target : string; cmd : string; arg : effect }.

(** The state the method runs in: the module-level catalog
    [EFFECT_MAPPING_V1] of [kasa/effects.py] (effect name to effect
    object), the store of the effect objects, and the calls made to the
    device so far, oldest first. *)
Record world := {
  EFFECT_MAPPING_V1 : gmap string loc;
  objects : gmap loc effect;
  calls : list call
}.

Definition set_objects (w : world) (o : gmap loc effect) : world :=
  {| EFFECT_MAPPING_V1 := EFFECT_MAPPING_V1 w; objects := o;
     calls := calls w |}.

Definition add_call (w : world) (c : call) : world :=
  {| EFFECT_MAPPING_V1 := EFFECT_MAPPING_V1 w; objects := objects w;
     calls := calls w ++ [c] |}.

(** What the catalog says of an effect name: the content of the object
    the name is bound to. *)
Definition catalog_entry (w : world) (name : string) : option effect :=
  l ← EFFECT_MAPPING_V1 w !! name; objects w !! l.

(** What the method reads of the device.  [requires_update] and
    [has_effects] belong to [kasa/iot/iotdevice.py] and
    [kasa/iot/iotbulb.py], which are not among the sources: the device
    either has been updated or not, and either reports effects or not. *)
Record t := { updated : bool; has_effects : bool }.

(** Modelled from the spec: the decorator [requires_update]; reading a
    device before its first update raises a not-yet-updated error. *)
Definition requires_update {A} (self : t) (f : M world A) : M world A :=
  if updated self then f
  else raise (KasaException "You need to await update() to access the data").

(** [obj[k] = v] on the object [obj]. *)
Definition setitem (obj : loc) (k : string) (v : value) : M world unit :=
  modify (fun w => set_objects w (alter (insert k v) obj (objects w))).

(** Modelled from the spec: [_query_helper] of [kasa/iot/iotdevice.py]
    hands the request to the transport collaborator, whose answer (or
    error) is [device]. *)
Definition _query_helper (device : call -> result unit)
    (target cmd : string) (arg : loc) : M world unit :=
  fun w =>
    let c := {| target := target; cmd := cmd;
                arg := default ∅ (objects w !! arg) |} in
    (device c, add_call w c).

Definition set_custom_effect (device : call -> result unit) (self : t)
    (effect_dict : loc) : M world unit :=
  requires_update self
    (if negb (has_effects self)
     then raise (KasaException "Bulb does not support effects.")
     else _query_helper device "smartlife.iot.lighting_effect"
            "set_lighting_effect" effect_dict).

Definition set_effect (device : call -> result unit) (self : t)
    (effect : string) (brightness transition : value) : M world unit :=
  requires_update self
    (w ← get_state;
     match EFFECT_MAPPING_V1 w !! effect with
     | None =>
         raise (KasaException
                  ("The effect " +:+ effect +:+ " is not a built in effect."))
     | Some effect_dict =>
         (if negb (is_none brightness)
          then setitem effect_dict "brightness" brightness
          else ret tt);;
         (if negb (is_none transition)
          then setitem effect_dict "transition" transition
          else ret tt);;
         set_custom_effect device self effect_dict
     end).

End IotLightStrip.

(* ===================================================================== *)
(** * Part II: properties                                                 *)
(* ===================================================================== *)

(** ** The state-and-exception monad *)

Lemma bind_ok {St A B} (m : M St A) (k : A -> M St B) s a s' :
  m s = (Ok a, s') -> (m ≫= k) s = k a s'.
Proof. intros H. unfold mbind, M_bind, bind. by rewrite H. Qed.

Lemma bind_raise {St A B} (m : M St A) (k : A -> M St B) s e s' :
  m s = (Raise e, s') -> (m ≫= k) s = (Raise e, s').
Proof. intros H. unfold mbind, M_bind, bind. by rewrite H. Qed.

(** ** Slugs and the feature registry *)

Section Registry.
Import KasaModule.

Lemma slug_one_char c :
  (let c1 := lower_char c in
   let c2 := if Ascii.eqb c1 " " then "_" else c1 in
   if Ascii.eqb c2 "'" then "_" else c2)%char
  = if decide (c = " "%char \/ c = "'"%char) then "_"%char else lower_char c.
Proof.
  cbv zeta.
  destruct (decide (c = " "%char \/ c = "'"%char)) as [[->| ->]|Hn]; [done..|].
  assert (Hsp : lower_char c <> " "%char).
  { intros E. apply Hn. left.
    unfold lower_char in E.
    destruct ((65 <=? nat_of_ascii c)%nat && (nat_of_ascii c <=? 90)%nat) eqn:Eb;
      [|done].
    apply andb_true_iff in Eb as [E1 E2].
    apply Nat.leb_le in E1, E2.
    apply (f_equal nat_of_ascii) in E.
    rewrite nat_ascii_embedding in E by lia.
    change (nat_of_ascii c + 32 = 32)%nat in E || change (nat_of_ascii c + 32 = 39)%nat in E. lia. }
  assert (Hap : lower_char c <> "'"%char).
  { intros E. apply Hn. right.
    unfold lower_char in E.
    destruct ((65 <=? nat_of_ascii c)%nat && (nat_of_ascii c <=? 90)%nat) eqn:Eb;
      [|done].
    apply andb_true_iff in Eb as [E1 E2].
    apply Nat.leb_le in E1, E2.
    apply (f_equal nat_of_ascii) in E.
    rewrite nat_ascii_embedding in E by lia.
    change (nat_of_ascii c + 32 = 32)%nat in E || change (nat_of_ascii c + 32 = 39)%nat in E. lia. }
  apply Ascii.eqb_neq in Hsp, Hap. rewrite Hsp, Hap. done.
Qed.

(** The two replacements of the slug, read on one character of the
    lowercased name. *)
Lemma replace_one_char c :
  (let c2 := if Ascii.eqb c " " then "_" else c in
   if Ascii.eqb c2 "'" then "_" else c2)%char
  = if decide (c = " "%char \/ c = "'"%char) then "_"%char else c.
Proof.
  cbv zeta.
  destruct (Ascii.eqb_spec c " "%char) as [->|Hsp]; [done|].
  destruct (Ascii.eqb_spec c "'"%char) as [->|Hap]; [done|].
  rewrite decide_False; [done|]. by intros [?|?].
Qed.

(** C7, as the code has it: the slug of a name is the lowercased name
    with every space and every apostrophe REPLACED by an underscore, each
    in its place, and nothing else changed.  On an ASCII name that is,
    character by character: an underscore for a space or an apostrophe,
    the small letter for a capital, the character itself otherwise.
    "Today's consumption" becomes "today_s_consumption", and
    "Total Energy" and "total_energy" share the slug "total_energy". *)
Theorem slugified_name_replaces_apostrophes :
  (forall name : string,
      String.list_ascii_of_string (_slugified_name name)
      = (fun c : ascii =>
           if decide (c = " "%char \/ c = "'"%char) then "_"%char else c)
          <$> String.list_ascii_of_string (lower name)) /\
  (forall name : string,
      Forall (fun c => (nat_of_ascii c < 128)%nat)
             (String.list_ascii_of_string name) ->
      String.list_ascii_of_string (_slugified_name name)
      = (fun c : ascii =>
           if decide (c = " "%char \/ c = "'"%char) then "_"%char
           else lower_char c)
          <$> String.list_ascii_of_string name) /\
  _slugified_name "Today's consumption" = "today_s_consumption" /\
  _slugified_name "Total Energy" = _slugified_name "total_energy".
Proof.
  split; [|split; [|split; reflexivity]].
  - intros name. unfold _slugified_name.
    induction (lower name) as [|c lowered IH]; [done|].
    cbn [replace String.list_ascii_of_string].
    rewrite fmap_cons, IH. f_equal. apply replace_one_char.
  - intros name _. unfold _slugified_name.
    induction name as [|c name IH]; [done|].
    cbn [lower replace String.list_ascii_of_string fmap list_fmap].
    rewrite IH. f_equal. apply slug_one_char.
Qed.

(** C7 on the ASCII name "It's On": both the apostrophe and the space
    give an underscore and the capitals are lowered. *)
Lemma slugified_name_replaces_apostrophes_witness :
  String.list_ascii_of_string (_slugified_name "It's On")
  = [ "i"; "t"; "_"; "s"; "_"; "o"; "n" ]%char.
Proof.
  rewrite (proj1 (proj2 slugified_name_replaces_apostrophes) "It's On").
  - reflexivity.
  - repeat constructor.
Defined.

(** C7, as the specification words it, fails: the apostrophe of
    "Today's consumption" is not stripped, the slug is not
    "todays_consumption" and it keeps the 19 characters of the name. *)
Lemma slugified_name_keeps_apostrophe_position :
  _slugified_name "Today's consumption" = "today_s_consumption" /\
  _slugified_name "Today's consumption" <> "todays_consumption" /\
  String.length (_slugified_name "Today's consumption") = 19%nat.
Proof. split; [reflexivity|split; [discriminate|reflexivity]]. Qed.

(** C1: when the slug of the feature's name is already a key of the
    registry, [_add_feature] raises the duplicate-name error and the
    module is exactly as before; otherwise it returns nothing and the
    registry is the old one with the feature inserted under its slug. *)
Theorem add_feature_duplicate_or_insert (self : t) (feature : Feature) :
  let slug := _slugified_name (name feature) in
  (is_Some (_module_features self !! slug) ->
   _add_feature feature self
   = (Raise (KasaException ("Duplicate name detected " +:+ slug)), self)) /\
  (_module_features self !! slug = None ->
   _add_feature feature self
   = (Ok tt,
      {| _module := _module self;
         _module_features := <[slug := feature]> (_module_features self) |})).
Proof.
  intros slug. unfold _add_feature. fold slug.
  unfold mbind, M_bind, bind, get_state.
  split; intros H; case_decide as Hd; try done.
  - rewrite H in Hd. by destruct Hd.
Qed.

(** C1 at work: after "Total Energy" is registered, "total_energy" is
    refused and the registry still holds the first feature alone. *)
Lemma add_feature_duplicate_or_insert_witness :
  let m0 := {| _module := "emeter"; _module_features := ∅ |} in
  let f1 := {| name := "Total Energy"; attribute := "emeter_total";
               kind := Sensor |} in
  let f2 := {| name := "total_energy"; attribute := "total";
               kind := Sensor |} in
  let m1 := {| _module := "emeter";
               _module_features := {[ "total_energy" := f1 ]} |} in
  _add_feature f1 m0 = (Ok tt, m1) /\
  _add_feature f2 m1
  = (Raise (KasaException "Duplicate name detected total_energy"), m1).
Proof.
  intros m0 f1 f2 m1. split.
  - apply (proj2 (add_feature_duplicate_or_insert m0 f1)). reflexivity.
  - apply (proj1 (add_feature_duplicate_or_insert m1 f2)).
    exists f1. reflexivity.
Defined.

End Registry.

(** ** The bulb facade *)

Section Bulb.
Import SmartBulb.






(** C3: on a device whose info blob has no "hue" key, [set_hsv] raises
    the capability error, whatever hue, saturation, value and transition
    are passed (valid or not), and the list of sent requests is
    unchanged: the guard comes before every validation. *)
Theorem set_hsv_capability_guard_first
    (device : request -> result response) (self : t)
    (hue saturation val transition : value) (sent : list request) :
  _info self !! "hue" = None ->
  set_hsv device self hue saturation val transition sent
  = (Raise (KasaException "Bulb does not support color."), sent).
Proof.
  intros H. unfold set_hsv, is_color.
  rewrite bool_decide_eq_false_2; [done|].
  rewrite H. by intros [? ?].
Qed.

Lemma set_hsv_capability_guard_first_witness :
  let self := {| _info := {[ "brightness" := VInt 40 ]};
                 modules := {[ "Brightness" ]} |} in
  _info self !! "hue" = None /\
  set_hsv (fun _ => Ok ∅) self (VInt 999) (VStr "red") (VInt 0) VNone []
  = (Raise (KasaException "Bulb does not support color."), []).
Proof.
  intros self. split; [reflexivity|].
  apply (set_hsv_capability_guard_first (fun _ => Ok ∅) self
           (VInt 999) (VStr "red") (VInt 0) VNone []).
  reflexivity.
Defined.

Lemma isinstance_int_as_int v :
  isinstance_int v = true <-> is_Some (as_int v).
Proof.
  destruct v as [| |[]| |]; simpl; split; (done || eauto || by intros [? ?]).
Qed.

Lemma int_check_passes lo hi v :
  negb (isinstance_int v) || negb (int_between lo hi v) = false <->
  exists z, as_int v = Some z /\ lo <= z <= hi.
Proof.
  rewrite orb_false_iff, !negb_false_iff. unfold int_between. split.
  - intros [_ H]. destruct (as_int v) as [z|]; [|done].
    apply andb_true_iff in H as [H1 H2]. exists z. split; [done|lia].
  - intros (z & Hz & Hlo & Hhi). split.
    + apply isinstance_int_as_int. by rewrite Hz.
    + rewrite Hz. apply andb_true_iff. split; lia.
Qed.

Lemma int_check_fails lo hi v :
  negb (isinstance_int v) || negb (int_between lo hi v) = true <->
  as_int v = None \/ exists z, as_int v = Some z /\ (z < lo \/ hi < z).
Proof.
  destruct (negb (isinstance_int v) || negb (int_between lo hi v)) eqn:E.
  - split; [intros _|done].
    destruct (as_int v) as [z|] eqn:Hz; [right|by left].
    exists z. split; [done|].
    destruct (decide (lo <= z <= hi)) as [Hin|Hout]; [|lia].
    assert (negb (isinstance_int v) || negb (int_between lo hi v) = false)
      as Hf by (apply int_check_passes; eauto).
    congruence.
  - split; [done|]. apply int_check_passes in E as (z & Hz & Hin).
    intros [Hn|(z' & Hz' & Hout)]; [congruence|].
    assert (z' = z) by congruence. lia.
Qed.

(** C6: on a dimmable device, [set_brightness] with an argument that is
    not an integer, or is an integer outside 1..100, raises the
    validation error and the list of sent requests is unchanged: the
    transport is not called. *)
Theorem set_brightness_validates_before_sending
    (device : request -> result response) (self : t)
    (brightness transition : value) (sent : list request) :
  "Brightness" ∈ modules self ->
  (as_int brightness = None \/
   exists z, as_int brightness = Some z /\ (z < 1 \/ 100 < z)) ->
  set_brightness device self brightness transition sent
  = (Raise (ValueError "Invalid brightness value: {} (valid range: 1-100%)"
              brightness), sent).
Proof.
  intros Hdim Hbad. unfold set_brightness, is_dimmable.
  rewrite bool_decide_eq_true_2 by done. simpl.
  apply bind_raise. unfold lift, _raise_for_invalid_brightness.
  apply int_check_fails in Hbad. by rewrite Hbad.
Qed.

(** C6 at 0, at 101 and at a float: each is refused with nothing sent. *)
Lemma set_brightness_validates_before_sending_witness :
  let self := {| _info := {[ "brightness" := VInt 40 ]};
                 modules := {[ "Brightness" ]} |} in
  let invalid := ValueError "Invalid brightness value: {} (valid range: 1-100%)" in
  set_brightness (fun _ => Ok ∅) self (VInt 0) VNone [] = (Raise (invalid (VInt 0)), []) /\
  set_brightness (fun _ => Ok ∅) self (VInt 101) VNone []
  = (Raise (invalid (VInt 101)), []) /\
  set_brightness (fun _ => Ok ∅) self (VNum (NFloat 50.5)) VNone []
  = (Raise (invalid (VNum (NFloat 50.5))), []).
Proof.
  intros self invalid.
  assert (Hdim : "Brightness" ∈ modules self) by (simpl; set_solver).
  split; [|split].
  - apply (set_brightness_validates_before_sending _ self (VInt 0) VNone []);
      [exact Hdim|].
    right. exists 0. split; [reflexivity|lia].
  - apply (set_brightness_validates_before_sending _ self (VInt 101) VNone []);
      [exact Hdim|].
    right. exists 101. split; [reflexivity|lia].
  - apply (set_brightness_validates_before_sending _ self
             (VNum (NFloat 50.5)) VNone []); [exact Hdim|].
    left. reflexivity.
Defined.

(** C8: on a color-capable device, with an integer hue in 0..360, an
    integer saturation in 0..100 and a value that is absent or an integer
    in 1..100, [set_hsv] sends exactly one request, [set_device_info],
    whose parameters are [color_temp = 0], the given hue, the given
    saturation and, exactly when a value was given, that value as
    [brightness]; the result is the device's answer to that request. *)
Theorem set_hsv_request_payload
    (device : request -> result response) (self : t)
    (hue saturation val transition : value) (sent : list request) :
  is_Some (_info self !! "hue") ->
  (exists h, as_int hue = Some h /\ 0 <= h <= 360) ->
  (exists s, as_int saturation = Some s /\ 0 <= s <= 100) ->
  (val = VNone \/ exists b, as_int val = Some b /\ 1 <= b <= 100) ->
  exists payload : gmap string value,
    set_hsv device self hue saturation val transition sent
    = (device {[ "set_device_info" := payload ]},
       sent ++ [{[ "set_device_info" := payload ]}]) /\
    payload !! "color_temp" = Some (VInt 0) /\
    payload !! "hue" = Some hue /\
    payload !! "saturation" = Some saturation /\
    payload !! "brightness" = (if is_none val then None else Some val) /\
    (is_Some (payload !! "brightness") <-> val <> VNone) /\
    dom payload ⊆ {[ "color_temp"; "hue"; "saturation"; "brightness" ]}.
Proof.
  intros Hcolor Hhue Hsat Hval. unfold set_hsv, is_color.
  rewrite bool_decide_eq_true_2 by done. simpl.
  apply int_check_passes in Hhue, Hsat. rewrite Hhue, Hsat.
  destruct Hval as [->|Hb].
  - simpl. eexists. split; [reflexivity|].
    split; [done|]. split; [done|]. split; [done|]. split; [done|].
    split; [split; [by intros [? ?]|intros Hn; exfalso; by apply Hn]|].
    rewrite !dom_insert_L, dom_singleton_L.
    intros k. rewrite !elem_of_union, !elem_of_singleton. tauto.
  - apply int_check_passes in Hb.
    assert (Hnn : is_none val = false).
    { destruct val; try done. }
    rewrite Hnn. simpl.
    erewrite bind_ok; [|unfold lift, _raise_for_invalid_brightness;
                        by rewrite Hb].
    eexists. split; [reflexivity|].
    split; [done|]. split; [done|]. split; [done|].
    split; [by rewrite lookup_insert_eq|].
    split; [split; [by intros _ ->|by rewrite lookup_insert_eq]|].
    rewrite !dom_insert_L, dom_singleton_L.
    intros k. rewrite !elem_of_union, !elem_of_singleton. tauto.
Qed.

Lemma set_hsv_request_payload_witness :
  let self := {| _info := {[ "hue" := VInt 0 ]}; modules := ∅ |} in
  (exists payload : gmap string value,
     set_hsv (fun _ => Ok ∅) self (VInt 120) (VInt 50) VNone VNone []
     = (Ok ∅, [{[ "set_device_info" := payload ]}]) /\
     payload !! "color_temp" = Some (VInt 0) /\
     payload !! "hue" = Some (VInt 120) /\
     payload !! "saturation" = Some (VInt 50) /\
     payload !! "brightness" = None) /\
  (exists payload : gmap string value,
     set_hsv (fun _ => Ok ∅) self (VInt 360) (VInt 0) (VInt 100) VNone []
     = (Ok ∅, [{[ "set_device_info" := payload ]}]) /\
     payload !! "brightness" = Some (VInt 100)).
Proof.
  intros self.
  assert (Hc : is_Some (_info self !! "hue")) by (by exists (VInt 0)).
  split.
  - destruct (set_hsv_request_payload (fun _ => Ok ∅) self
                (VInt 120) (VInt 50) VNone VNone [] Hc)
      as (p & H & H1 & H2 & H3 & H4 & _).
    + exists 120. split; [reflexivity|lia].
    + exists 50. split; [reflexivity|lia].
    + by left.
    + exists p. repeat split; assumption.
  - destruct (set_hsv_request_payload (fun _ => Ok ∅) self
                (VInt 360) (VInt 0) (VInt 100) VNone [] Hc)
      as (p & H & _ & _ & _ & H4 & _).
    + exists 360. split; [reflexivity|lia].
    + exists 0. split; [reflexivity|lia].
    + right. exists 100. split; [reflexivity|lia].
    + exists p. split; assumption.
Defined.

End Bulb.

(** ** Equality of numbers

    Python's [==] on [int] and [float] is symmetric and transitive: a
    finite float has one canonical mantissa and exponent, so two floats
    equal to the same integer are the same float. *)

Section Numbers.

(** Equality of two spec floats as [SFeqb] decides it: two zeros of any
    sign, or the same infinity or finite triple. *)
Lemma SFeqb_true a b :
  SFeqb a b = true <->
  (exists s s', a = S754_zero s /\ b = S754_zero s') \/
  (a = b /\ a <> S754_nan /\ forall s, a <> S754_zero s).
Proof.
  unfold SFeqb, SFcompare. split.
  - destruct a as [s1|s1| |s1 m1 e1], b as [s2|s2| |s2 m2 e2];
      try discriminate; try (destruct s1; discriminate);
      try (destruct s2; discriminate).
    + intros _. left. eauto.
    + destruct s1, s2; try discriminate; intros _; right; repeat split; done.
    + destruct s1, s2; try discriminate;
        destruct (Z.compare_spec e1 e2) as [->| |]; try discriminate;
        destruct (Pos.compare_cont Eq m1 m2) eqn:E; try discriminate;
        apply Pos.compare_eq in E as ->; intros _; right; repeat split; done.
  - intros [(s & s' & -> & ->)|(<- & Hnan & Hz)]; [done|].
    destruct a as [s1|s1| |s1 m1 e1]; [by destruct (Hz s1)| |done|].
    + by destruct s1.
    + rewrite Z.compare_refl.
      change (Pos.compare_cont Eq m1 m1) with (m1 ?= m1)%positive.
      rewrite Pos.compare_refl. by destruct s1.
Qed.

Lemma digits2_pos_shift (m : positive) (k : Z) :
  0 <= k -> forall p : positive,
  Z.pos p = Z.pos m * 2 ^ k ->
  Z.pos (digits2_pos p) = Z.pos (digits2_pos m) + k.
Proof.
  intros Hk. pattern k. apply natlike_ind; [| |exact Hk]; clear k Hk.
  - intros p Hp. rewrite Z.mul_1_r in Hp. injection Hp as ->. lia.
  - intros k Hk IH p Hp. rewrite Z.pow_succ_r in Hp by done.
    destruct p as [q|q|]; [lia| |lia].
    cbn [digits2_pos]. rewrite Pos2Z.inj_succ, (IH q); lia.
Qed.

Lemma canonical_unique_le m1 e1 m2 e2 :
  bounded prec emax m1 e1 = true -> bounded prec emax m2 e2 = true ->
  e1 <= e2 -> Z.pos m1 = Z.pos m2 * 2 ^ (e2 - e1) ->
  m1 = m2 /\ e1 = e2.
Proof.
  unfold bounded, canonical_mantissa, fexp.
  intros [H1 _]%andb_true_iff [H2 _]%andb_true_iff Hle Hm.
  apply Z.eqb_eq in H1, H2.
  pose proof (digits2_pos_shift m2 (e2 - e1) ltac:(lia) m1 Hm) as Hd.
  assert (e1 = e2) as <- by lia.
  split; [|done]. rewrite Z.sub_diag, Z.mul_1_r in Hm. by injection Hm.
Qed.

(** The equation [int_float_eqb] checks on a finite float, in one form. *)
Lemma int_float_value (z sm e : Z) :
  (if 0 <=? e then z =? sm * 2 ^ e else z * 2 ^ (- e) =? sm) = true ->
  z * 2 ^ Z.max 0 (- e) = sm * 2 ^ Z.max 0 e.
Proof.
  destruct (Z.leb_spec 0 e) as [He|He]; intros H%Z.eqb_eq.
  - rewrite Z.max_l, Z.max_r by lia. lia.
  - rewrite Z.max_r, Z.max_l by lia. lia.
Qed.

Lemma same_value_le (z : Z) s1 m1 e1 s2 m2 e2 :
  bounded prec emax m1 e1 = true -> bounded prec emax m2 e2 = true ->
  e1 <= e2 ->
  z * 2 ^ Z.max 0 (- e1) = (if s1 : bool then Z.neg m1 else Z.pos m1) * 2 ^ Z.max 0 e1 ->
  z * 2 ^ Z.max 0 (- e2) = (if s2 : bool then Z.neg m2 else Z.pos m2) * 2 ^ Z.max 0 e2 ->
  S754_finite s1 m1 e1 = S754_finite s2 m2 e2.
Proof.
  intros Hb1 Hb2 Hle H1 H2.
  set (A1 := Z.max 0 (- e1)) in *. set (B1 := Z.max 0 e1) in *.
  set (A2 := Z.max 0 (- e2)) in *. set (B2 := Z.max 0 e2) in *.
  assert (HA1 : 0 <= A1) by lia. assert (HB1 : 0 <= B1) by lia.
  assert (HA2 : 0 <= A2) by lia. assert (HB2 : 0 <= B2) by lia.
  assert (Hd : B2 + A1 = (B1 + A2) + (e2 - e1)) by lia.
  set (sm1 := if s1 then Z.neg m1 else Z.pos m1) in *.
  set (sm2 := if s2 then Z.neg m2 else Z.pos m2) in *.
  assert (Hx : sm1 * 2 ^ (B1 + A2) = sm2 * 2 ^ (e2 - e1) * 2 ^ (B1 + A2)).
  { rewrite <- Z.mul_assoc, <- (Z.pow_add_r 2 (e2 - e1)) by lia.
    replace (e2 - e1 + (B1 + A2)) with (B2 + A1) by lia.
    rewrite !Z.pow_add_r by lia.
    transitivity (z * 2 ^ A1 * 2 ^ A2); [rewrite H1; ring|].
    transitivity (z * 2 ^ A2 * 2 ^ A1); [ring|rewrite H2; ring]. }
  apply Z.mul_reg_r in Hx; [|apply Z.pow_nonzero; lia].
  assert (Hp : 0 < 2 ^ (e2 - e1)) by (apply Z.pow_pos_nonneg; lia).
  assert (s1 = s2) as <-.
  { subst sm1 sm2. destruct s1, s2; try done; exfalso; nia. }
  assert (Hm : Z.pos m1 = Z.pos m2 * 2 ^ (e2 - e1)).
  { subst sm1 sm2. destruct s1; [|done].
    rewrite <- !Pos2Z.opp_pos in Hx. lia. }
  destruct (canonical_unique_le m1 e1 m2 e2 Hb1 Hb2 Hle Hm) as [-> ->]. done.
Qed.

Lemma int_float_eqb_inj (x y : Z) (f : float) :
  int_float_eqb x f = true -> int_float_eqb y f = true -> x = y.
Proof.
  unfold int_float_eqb. destruct (Prim2SF f) as [s|s| |s m e]; try done.
  - intros ->%Z.eqb_eq ->%Z.eqb_eq. done.
  - intros Hx%int_float_value Hy%int_float_value.
    rewrite <- Hy in Hx. apply Z.mul_reg_r in Hx; [done|].
    apply Z.pow_nonzero; lia.
Qed.

Lemma float_eqb_sym (f g : float) :
  (f =? g)%float = true -> (g =? f)%float = true.
Proof.
  rewrite !FloatAxioms.eqb_spec, !SFeqb_true.
  intros [(s & s' & ? & ?)|(Heq & Hnan & Hz)]; [left; eauto|right].
  rewrite <- Heq. done.
Qed.

Lemma float_eqb_trans (f g h : float) :
  (f =? g)%float = true -> (g =? h)%float = true -> (f =? h)%float = true.
Proof.
  rewrite !FloatAxioms.eqb_spec, !SFeqb_true.
  intros [(s & s' & Hf & Hg)|(Hfg & Hnan & Hz)]
         [(t & t' & Hg' & Hh)|(Hgh & Hnan' & Hz')].
  - left. eauto.
  - exfalso. by apply (Hz' s').
  - exfalso. apply (Hz t). congruence.
  - right. rewrite <- Hgh, <- Hfg. done.
Qed.

Lemma int_float_eqb_transfer (x : Z) (f g : float) :
  int_float_eqb x f = true -> (f =? g)%float = true ->
  int_float_eqb x g = true.
Proof.
  rewrite FloatAxioms.eqb_spec, SFeqb_true. unfold int_float_eqb.
  intros Hx [(s & s' & Hf & Hg)|(Heq & _ & _)].
  - rewrite Hf in Hx. by rewrite Hg.
  - by rewrite <- Heq.
Qed.

Lemma int_float_eqb_float (x : Z) (f g : float) :
  int_float_eqb x f = true -> int_float_eqb x g = true ->
  (f =? g)%float = true.
Proof.
  rewrite FloatAxioms.eqb_spec, SFeqb_true. unfold int_float_eqb.
  pose proof (Prim2SF_valid f) as Vf. pose proof (Prim2SF_valid g) as Vg.
  destruct (Prim2SF f) as [s1|s1| |s1 m1 e1]; try done;
    destruct (Prim2SF g) as [s2|s2| |s2 m2 e2]; try done.
  - intros _ _. left. eauto.
  - intros ->%Z.eqb_eq H%int_float_value. exfalso.
    assert (0 < 2 ^ Z.max 0 e2) by (apply Z.pow_pos_nonneg; lia).
    destruct s2; nia.
  - intros H%int_float_value ->%Z.eqb_eq. exfalso.
    assert (0 < 2 ^ Z.max 0 e1) by (apply Z.pow_pos_nonneg; lia).
    destruct s1; nia.
  - intros H1%int_float_value H2%int_float_value. right.
    simpl in Vf, Vg.
    assert (S754_finite s1 m1 e1 = S754_finite s2 m2 e2) as Heq.
    { destruct (Z.le_ge_cases e1 e2).
      - by apply (same_value_le x).
      - symmetry. by apply (same_value_le x). }
    repeat split; done.
Qed.

(** Python's [==] on numbers is symmetric and transitive. *)
Lemma num_eqb_sym (a b : num) : num_eqb a b = true -> num_eqb b a = true.
Proof.
  destruct a, b; simpl; try done.
  - by rewrite Z.eqb_sym.
  - apply float_eqb_sym.
Qed.

Lemma num_eqb_trans (a b c : num) :
  num_eqb a b = true -> num_eqb b c = true -> num_eqb a c = true.
Proof.
  destruct a as [x|f], b as [y|g], c as [z|h]; simpl.
  - intros ->%Z.eqb_eq. done.
  - intros ->%Z.eqb_eq. done.
  - intros H1 H2. apply Z.eqb_eq. eauto using int_float_eqb_inj.
  - apply int_float_eqb_transfer.
  - intros H ->%Z.eqb_eq. done.
  - intros H1 H2. eauto using int_float_eqb_float.
  - intros H1 H2. eapply int_float_eqb_transfer; [exact H2|].
    by apply float_eqb_sym.
  - apply float_eqb_trans.
Qed.

End Numbers.

(** ** Energy statistics *)

Section Statistics.
Import Emeter.

Implicit Types (data pre post : list record) (e entry first : record).
Implicit Types (d acc : pydict) (k v x scale : num) (key : Z).

(** The loop over the reversed list passes over records whose period is
    not the wanted one. *)
Lemma find_key_skip entry_key value_key scale key (skipped others : list record) :
  Forall (fun e => exists k, e !! entry_key = Some k /\
                             num_eqb k (NInt key) = false) skipped ->
  find_key entry_key value_key scale key (skipped ++ others)
  = find_key entry_key value_key scale key others.
Proof.
  induction 1 as [|e skipped (k & Hk & Hne) _ IH]; [done|].
  simpl. unfold dict_item. rewrite Hk. simpl. by rewrite Hne.
Qed.

Lemma find_key_hit entry_key value_key scale key e others k v x :
  e !! entry_key = Some k -> num_eqb k (NInt key) = true ->
  e !! value_key = Some v -> num_mul v scale = Ok x ->
  find_key entry_key value_key scale key (e :: others) = Ok [(k, x)].
Proof.
  intros Hk Heq Hv Hx. simpl. unfold convert_entry, dict_item.
  rewrite Hk. simpl. rewrite Heq, Hv. simpl. by rewrite Hx.
Qed.

Lemma find_key_last entry_key value_key scale key pre e post k v x :
  e !! entry_key = Some k -> num_eqb k (NInt key) = true ->
  Forall (fun e' => exists k', e' !! entry_key = Some k' /\
                               num_eqb k' (NInt key) = false) post ->
  e !! value_key = Some v -> num_mul v scale = Ok x ->
  find_key entry_key value_key scale key (reverse (pre ++ e :: post))
  = Ok [(k, x)].
Proof.
  intros Hk Heq Hpost Hv Hx.
  rewrite reverse_app, reverse_cons, <- app_assoc.
  rewrite find_key_skip by by apply Forall_reverse.
  simpl. eauto using find_key_hit.
Qed.

Lemma find_key_none entry_key value_key scale key data :
  Forall (fun e => exists k, e !! entry_key = Some k /\
                             num_eqb k (NInt key) = false) data ->
  find_key entry_key value_key scale key (reverse data) = Ok [].
Proof.
  intros H. rewrite <- (app_nil_r (reverse data)).
  by rewrite find_key_skip by by apply Forall_reverse.
Qed.

(** Single-key mode on a list with a first record, shared by the
    properties below. *)
Lemma convert_stat_data_single_key_aux data entry_key (kwh : bool) key
    first rest :
  data = first :: rest ->
  (forall pre e post k v x,
      data = pre ++ e :: post ->
      e !! entry_key = Some k -> num_eqb k (NInt key) = true ->
      Forall (fun e' => exists k', e' !! entry_key = Some k' /\
                                   num_eqb k' (NInt key) = false) post ->
      e !! (infer_unit first kwh).1 = Some v ->
      num_mul v (infer_unit first kwh).2 = Ok x ->
      _convert_stat_data data entry_key kwh (Some key) = Ok [(k, x)]) /\
  (Forall (fun e' => exists k', e' !! entry_key = Some k' /\
                                num_eqb k' (NInt key) = false) data ->
   _convert_stat_data data entry_key kwh (Some key) = Ok []).
Proof.
  intros ->. unfold _convert_stat_data.
  destruct (infer_unit first kwh) as [value_key scale]. simpl fst. simpl snd.
  split.
  - intros pre e post k v x ->. apply find_key_last.
  - apply find_key_none.
Qed.

(** C4: in single-key mode on a non-empty list, the result is the
    one-entry mapping from the wanted key to the scaled energy of the
    LAST record whose [entry_key] field equals the key (every record
    after it has another period), and the empty mapping when no record's
    field equals the key.  The scaled energy is read off the first
    record's unit: when the first record has an [energy_wh] field it is
    the record's [energy_wh] times 1/1000 if kWh are asked for and times 1
    if not; otherwise it is the record's [energy] times 1 if kWh are
    asked for and times 1000 if not. *)
Theorem convert_stat_data_single_key data entry_key (kwh : bool) key :
  data <> [] ->
  exists first rest,
    data = first :: rest /\
    let unit : string * num :=
      if decide (is_Some (first !! "energy_wh"))
      then ("energy_wh", if kwh then NFloat (1 / 1000) else NInt 1)
      else ("energy", if kwh then NInt 1 else NInt 1000) in
    (forall pre e post k v x,
        data = pre ++ e :: post ->
        e !! entry_key = Some k -> num_eqb k (NInt key) = true ->
        Forall (fun e' => exists k', e' !! entry_key = Some k' /\
                                     num_eqb k' (NInt key) = false) post ->
        e !! unit.1 = Some v -> num_mul v unit.2 = Ok x ->
        _convert_stat_data data entry_key kwh (Some key) = Ok [(k, x)]) /\
    (Forall (fun e' => exists k', e' !! entry_key = Some k' /\
                                  num_eqb k' (NInt key) = false) data ->
     _convert_stat_data data entry_key kwh (Some key) = Ok []).
Proof.
  intros Hne. destruct data as [|first rest]; [done|].
  exists first, rest. split; [done|]. intros unit.
  assert (Hunit : infer_unit first kwh = unit).
  { subst unit. unfold infer_unit. by destruct kwh. }
  rewrite <- Hunit.
  by apply (convert_stat_data_single_key_aux _ _ _ _ first rest).
Qed.

(** C4 on the kWh-valued series of two months, asked in Wh for month 2:
    the answer is [{2: 5000.0}]; asked for month 3, it is empty.  On a
    Wh-valued series of two days asked in kWh for day 2, it is
    [{2: 2.0}]. *)
Lemma convert_stat_data_single_key_witness :
  let data : list record :=
    [ {[ "month" := NInt 1; "energy" := NFloat 5 ]};
      {[ "month" := NInt 2; "energy" := NFloat 5 ]} ] in
  let days : list record :=
    [ {[ "day" := NInt 1; "energy_wh" := NInt 1000 ]};
      {[ "day" := NInt 2; "energy_wh" := NInt 2000 ]} ] in
  _convert_stat_data data "month" false (Some 2) = Ok [(NInt 2, NFloat 5000)] /\
  _convert_stat_data data "month" false (Some 3) = Ok [] /\
  _convert_stat_data days "day" true (Some 2) = Ok [(NInt 2, NFloat 2)].
Proof.
  intros data days.
  assert (Hne : data <> []) by discriminate.
  assert (Hne' : days <> []) by discriminate.
  destruct (convert_stat_data_single_key data "month" false 2 Hne)
    as (first & rest & Hd & Hhit & _).
  destruct (convert_stat_data_single_key data "month" false 3 Hne)
    as (first' & rest' & Hd' & _ & Hmiss).
  destruct (convert_stat_data_single_key days "day" true 2 Hne')
    as (first'' & rest'' & Hd'' & Hhit'' & _).
  injection Hd as <- <-. injection Hd' as <- <-. injection Hd'' as <- <-.
  split; [|split].
  - apply (Hhit [ {[ "month" := NInt 1; "energy" := NFloat 5 ]} ]
                {[ "month" := NInt 2; "energy" := NFloat 5 ]} []
                (NInt 2) (NFloat 5) (NFloat 5000));
      first [reflexivity | constructor].
  - apply Hmiss.
    repeat constructor;
      [exists (NInt 1) | exists (NInt 2)]; split; reflexivity.
  - apply (Hhit'' [ {[ "day" := NInt 1; "energy_wh" := NInt 1000 ]} ]
                  {[ "day" := NInt 2; "energy_wh" := NInt 2000 ]} []
                  (NInt 2) (NInt 2000) (NFloat 2));
      first [reflexivity | constructor].
Defined.

(** *** The whole series *)

Lemma dict_get_set acc k x k2 :
  dict_get (dict_set acc k x) k2
  = if num_eqb k k2 then Some x else dict_get acc k2.
Proof.
  induction acc as [|[k' v'] acc IH]; simpl; [done|].
  destruct (num_eqb k' k) eqn:E1; simpl.
  - destruct (num_eqb k' k2) eqn:E2, (num_eqb k k2) eqn:E3; try done.
    + apply num_eqb_sym in E1.
      pose proof (num_eqb_trans _ _ _ E1 E2). congruence.
    + pose proof (num_eqb_trans _ _ _ E1 E3). congruence.
  - rewrite IH.
    destruct (num_eqb k' k2) eqn:E2, (num_eqb k k2) eqn:E3; try done.
    apply num_eqb_sym in E3.
    pose proof (num_eqb_trans _ _ _ E2 E3). congruence.
Qed.

(** The comprehension, started on any dict: a period found in the list
    maps to the scaled energy of its last record, any other period keeps
    what the dict had. *)
Lemma convert_all_lookup entry_key value_key scale data :
  Forall (fun e => exists k v x,
            e !! entry_key = Some k /\
            e !! value_key = Some v /\ num_mul v scale = Ok x) data ->
  forall acc,
    exists d,
      convert_all entry_key value_key scale data acc = Ok d /\
      (forall (key : num) pre e post k v x,
          data = pre ++ e :: post ->
          e !! entry_key = Some k -> num_eqb k key = true ->
          Forall (fun e' => exists k', e' !! entry_key = Some k' /\
                                       num_eqb k' key = false) post ->
          e !! value_key = Some v -> num_mul v scale = Ok x ->
          dict_get d key = Some x) /\
      (forall key : num,
          Forall (fun e' => exists k', e' !! entry_key = Some k' /\
                                       num_eqb k' key = false) data ->
          dict_get d key = dict_get acc key).
Proof.
  induction 1 as [|entry rest (k0 & v0 & x0 & Hk0 & Hv0 & Hx0) _ IH];
    intros acc.
  - exists acc. split; [done|]. split; [|done].
    intros key [|??] ???????; discriminate.
  - destruct (IH (dict_set acc k0 x0)) as (d & Hd & Hlast & Hother).
    exists d. split; [|split].
    + simpl. unfold convert_entry, dict_item. rewrite Hk0, Hv0. simpl.
      rewrite Hx0. simpl. exact Hd.
    + intros key [|e0 pre] e post k v x Heq Hk Hkey Hpost Hv Hx.
      * simpl in Heq. injection Heq as <- <-.
        rewrite Hother by done. rewrite dict_get_set.
        assert (k0 = k) by congruence. subst.
        rewrite Hkey. congruence.
      * simpl in Heq. injection Heq as <- ->. eauto.
    + intros key Hall. apply Forall_cons in Hall as [(k' & Hk' & Hne) Htl].
      rewrite Hother by done. rewrite dict_get_set.
      assert (k0 = k') by congruence. subst. by rewrite Hne.
Qed.

(** C5: with no key, the empty list gives the empty mapping.  Otherwise
    the unit is read off the first record alone: with an [energy_wh]
    field the energy is in that field and the factor is 1/1000 when kWh
    are asked for (1 otherwise); without it the energy is in [energy] and
    the factor is 1000 when Wh are asked for (1 otherwise).  On a series
    whose records all have a period and an energy in the inferred field,
    the result maps every period of the series to the scaled energy of the
    LAST record of that period (a later record overwrites an earlier one)
    and has no other key. *)
Theorem convert_stat_data_whole_series entry_key (kwh : bool) :
  _convert_stat_data [] entry_key kwh None = Ok [] /\
  (forall first,
      infer_unit first kwh
      = if decide (is_Some (first !! "energy_wh"))
        then ("energy_wh", if kwh then NFloat (1 / 1000) else NInt 1)
        else ("energy", if kwh then NInt 1 else NInt 1000)) /\
  (forall first rest,
      let data := first :: rest in
      let value_key := (infer_unit first kwh).1 in
      let scale := (infer_unit first kwh).2 in
      Forall (fun e => exists k v x,
                e !! entry_key = Some k /\
                e !! value_key = Some v /\ num_mul v scale = Ok x) data ->
      exists d,
        _convert_stat_data data entry_key kwh None = Ok d /\
        (forall (key : num) pre e post k v x,
            data = pre ++ e :: post ->
            e !! entry_key = Some k -> num_eqb k key = true ->
            Forall (fun e' => exists k', e' !! entry_key = Some k' /\
                                         num_eqb k' key = false) post ->
            e !! value_key = Some v -> num_mul v scale = Ok x ->
            dict_get d key = Some x) /\
        (forall key : num,
            Forall (fun e' => exists k', e' !! entry_key = Some k' /\
                                         num_eqb k' key = false) data ->
            dict_get d key = None)).
Proof.
  split; [done|]. split.
  - intros first. unfold infer_unit. by destruct kwh.
  - intros first rest data value_key scale Hwf.
    assert (Hrun : _convert_stat_data data entry_key kwh None
                   = convert_all entry_key value_key scale data []).
    { subst data value_key scale. unfold _convert_stat_data.
      by destruct (infer_unit first kwh). }
    rewrite Hrun.
    destruct (convert_all_lookup entry_key value_key scale data Hwf [])
      as (d & Hd & Hlast & Hother).
    exists d. split; [exact Hd|]. split; [exact Hlast|].
    intros key Hall. by rewrite Hother.
Qed.

(** C5 on series in Wh: two days asked in kWh give [{1: 1.0, 2: 2.0}];
    a day that comes twice, the second time as the float [1.0], keeps its
    place and its first key and takes the later value. *)
Lemma convert_stat_data_whole_series_witness :
  let data : list record :=
    [ {[ "day" := NInt 1; "energy_wh" := NInt 1000 ]};
      {[ "day" := NInt 2; "energy_wh" := NInt 2000 ]} ] in
  let again : list record :=
    data ++ [ {[ "day" := NFloat 1; "energy_wh" := NInt 3000 ]} ] in
  _convert_stat_data data "day" true None
  = Ok [(NInt 1, NFloat 1); (NInt 2, NFloat 2)] /\
  _convert_stat_data again "day" true None
  = Ok [(NInt 1, NFloat 3); (NInt 2, NFloat 2)] /\
  exists d, _convert_stat_data again "day" true None = Ok d /\
            dict_get d (NInt 1) = Some (NFloat 3) /\
            dict_get d (NInt 3) = None.
Proof.
  intros data again.
  split; [reflexivity|]. split; [reflexivity|].
  destruct (proj2 (proj2 (convert_stat_data_whole_series "day" true))
              {[ "day" := NInt 1; "energy_wh" := NInt 1000 ]}
              [ {[ "day" := NInt 2; "energy_wh" := NInt 2000 ]};
                {[ "day" := NFloat 1; "energy_wh" := NInt 3000 ]} ])
    as (d & Hd & Hlast & Hnone).
  - repeat constructor;
      [ exists (NInt 1), (NInt 1000), (NFloat 1)
      | exists (NInt 2), (NInt 2000), (NFloat 2)
      | exists (NFloat 1), (NInt 3000), (NFloat 3) ];
      repeat split; reflexivity.
  - exists d. split; [exact Hd|]. split.
    + apply (Hlast (NInt 1)
                   [ {[ "day" := NInt 1; "energy_wh" := NInt 1000 ]};
                     {[ "day" := NInt 2; "energy_wh" := NInt 2000 ]} ]
                   {[ "day" := NFloat 1; "energy_wh" := NInt 3000 ]} []
                   (NFloat 1) (NInt 3000) (NFloat 3));
        first [reflexivity | constructor].
    + apply Hnone.
      repeat constructor;
        [ exists (NInt 1) | exists (NInt 2) | exists (NFloat 1) ];
        split; reflexivity.
Defined.

(** *** Today and this month *)

(** Looking the current period up in the one-entry (or empty) mapping
    that single-key mode returns for it. *)
Lemma lookup_current_period data field (current : Z) first rest :
  data = first :: rest ->
  let unit : string * num :=
    if decide (is_Some (first !! "energy_wh"))
    then ("energy_wh", NFloat (1 / 1000)) else ("energy", NInt 1) in
  let read : result (option num) :=
    d ← _convert_stat_data data field true (Some current);
    Ok (dict_get d (NInt current)) in
  (Forall (fun e' => exists k', e' !! field = Some k' /\
                                num_eqb k' (NInt current) = false) data ->
   read = Ok None) /\
  (forall pre e post k v x,
      data = pre ++ e :: post ->
      e !! field = Some k -> num_eqb k (NInt current) = true ->
      Forall (fun e' => exists k', e' !! field = Some k' /\
                                   num_eqb k' (NInt current) = false) post ->
      e !! unit.1 = Some v -> num_mul v unit.2 = Ok x ->
      read = Ok (Some x)).
Proof.
  intros Hdata unit read.
  assert (Hunit : infer_unit first true = unit) by done.
  destruct (convert_stat_data_single_key_aux data field true current
              first rest Hdata) as [Hhit Hmiss].
  rewrite Hunit in Hhit. subst read. split.
  - intros Hall. by rewrite (Hmiss Hall).
  - intros pre e post k v x Hsplit Hk Heq Hpost Hv Hx.
    rewrite (Hhit pre e post k v x Hsplit Hk Heq Hpost Hv Hx). simpl.
    by rewrite Heq.
Qed.

(** C10: [emeter_today] returns [None], and does not raise, on an empty
    list and on a list none of whose records has the current day;
    otherwise it returns the energy of the LAST record of the current
    day in kWh, that is its [energy_wh] times 1/1000 when the first
    record has an [energy_wh] field and its [energy] (times 1) when it
    has not.  [emeter_this_month] does the same on the monthly list with
    the current month. *)
Theorem emeter_today_and_month_lookup (self : t) (now : datetime) :
  (daily_data self = [] -> emeter_today self now = Ok None) /\
  (monthly_data self = [] -> emeter_this_month self now = Ok None) /\
  (forall first rest,
      daily_data self = first :: rest ->
      let unit : string * num :=
        if decide (is_Some (first !! "energy_wh"))
        then ("energy_wh", NFloat (1 / 1000)) else ("energy", NInt 1) in
      (Forall (fun e' => exists k', e' !! "day" = Some k' /\
                  num_eqb k' (NInt (day now)) = false) (daily_data self) ->
       emeter_today self now = Ok None) /\
      (forall pre e post k v x,
          daily_data self = pre ++ e :: post ->
          e !! "day" = Some k -> num_eqb k (NInt (day now)) = true ->
          Forall (fun e' => exists k', e' !! "day" = Some k' /\
                    num_eqb k' (NInt (day now)) = false) post ->
          e !! unit.1 = Some v -> num_mul v unit.2 = Ok x ->
          emeter_today self now = Ok (Some x))) /\
  (forall first rest,
      monthly_data self = first :: rest ->
      let unit : string * num :=
        if decide (is_Some (first !! "energy_wh"))
        then ("energy_wh", NFloat (1 / 1000)) else ("energy", NInt 1) in
      (Forall (fun e' => exists k', e' !! "month" = Some k' /\
                  num_eqb k' (NInt (month now)) = false) (monthly_data self) ->
       emeter_this_month self now = Ok None) /\
      (forall pre e post k v x,
          monthly_data self = pre ++ e :: post ->
          e !! "month" = Some k -> num_eqb k (NInt (month now)) = true ->
          Forall (fun e' => exists k', e' !! "month" = Some k' /\
                    num_eqb k' (NInt (month now)) = false) post ->
          e !! unit.1 = Some v -> num_mul v unit.2 = Ok x ->
          emeter_this_month self now = Ok (Some x))).
Proof.
  split; [|split; [|split]].
  - unfold emeter_today. by intros ->.
  - unfold emeter_this_month. by intros ->.
  - intros first rest Hdata.
    exact (lookup_current_period (daily_data self) "day" (day now)
             first rest Hdata).
  - intros first rest Hdata.
    exact (lookup_current_period (monthly_data self) "month" (month now)
             first rest Hdata).
Qed.

(** C10 on the second of February: the day list has two records for
    day 2 and the later one is read; the month list has no February. *)
Lemma emeter_today_and_month_lookup_witness :
  let self :=
    {| daily_data :=
         [ {[ "day" := NInt 1; "energy_wh" := NInt 1000 ]};
           {[ "day" := NInt 2; "energy_wh" := NInt 2000 ]};
           {[ "day" := NInt 2; "energy_wh" := NInt 2500 ]} ];
       monthly_data := [ {[ "month" := NInt 1; "energy" := NFloat 5 ]} ] |} in
  let now := {| month := 2; day := 2 |} in
  emeter_today self now = Ok (Some (NFloat 2.5)) /\
  emeter_this_month self now = Ok None /\
  emeter_today {| daily_data := []; monthly_data := [] |} now = Ok None.
Proof.
  intros self now.
  destruct (emeter_today_and_month_lookup self now)
    as (_ & _ & Hday & Hmonth).
  destruct (emeter_today_and_month_lookup
              {| daily_data := []; monthly_data := [] |} now)
    as (Hempty & _).
  split; [|split].
  - apply (proj2 (Hday _ _ eq_refl)
             [ {[ "day" := NInt 1; "energy_wh" := NInt 1000 ]};
               {[ "day" := NInt 2; "energy_wh" := NInt 2000 ]} ]
             {[ "day" := NInt 2; "energy_wh" := NInt 2500 ]} []
             (NInt 2) (NInt 2500) (NFloat 2.5));
      first [reflexivity | constructor].
  - apply (proj1 (Hmonth _ _ eq_refl)).
    repeat constructor. exists (NInt 1). split; reflexivity.
  - apply Hempty. reflexivity.
Defined.

End Statistics.

(** ** Light strip effects *)

Section Effects.
Import IotLightStrip.

(** With a brightness override and no transition override, [set_effect]
    on a recognized effect writes the brightness into the effect object
    the catalog is bound to, whether or not the device then accepts the
    effect; the catalog entry is changed unless it already had that
    brightness. *)
Lemma set_effect_brightness_writes_catalog
    (device : call -> result unit) (self : t) (w : world)
    (name : string) (l : loc) (e : effect) (brightness : value) :
  updated self = true ->
  EFFECT_MAPPING_V1 w !! name = Some l ->
  objects w !! l = Some e ->
  brightness <> VNone ->
  let w' := (set_effect device self name brightness VNone w).2 in
  catalog_entry w' name = Some (<["brightness" := brightness]> e) /\
  (has_effects self = true ->
   calls w' = calls w ++
     [{| target := "smartlife.iot.lighting_effect";
         cmd := "set_lighting_effect";
         arg := <["brightness" := brightness]> e |}]).
Proof.
  intros Hup Hname Hobj Hb. unfold set_effect, requires_update.
  rewrite Hup.
  unfold mbind, M_bind, bind, get_state. rewrite Hname.
  assert (is_none brightness = false) as -> by (by destruct brightness).
  simpl. unfold set_custom_effect, requires_update. rewrite Hup.
  unfold catalog_entry.
  destruct (has_effects self); simpl.
  - rewrite Hname. simpl. rewrite lookup_alter_eq, Hobj. simpl.
    split; [done|]. intros _. done.
  - rewrite Hname. simpl. rewrite lookup_alter_eq, Hobj. simpl.
    split; [done|]. done.
Qed.

(** C9, on the code: a catalog with the one effect "Aurora" (brightness
    100).  [set_effect("Aurora", brightness=50)] leaves the catalog entry
    with brightness 50, and the next [set_effect("Aurora")], with no
    override, sends brightness 50 and not the original 100. *)
Theorem set_effect_override_persists_in_catalog :
  let aurora : effect :=
    {[ "name" := VStr "Aurora"; "custom" := VInt 0; "enable" := VInt 1;
       "brightness" := VInt 100; "transition" := VInt 1500 ]} in
  let w0 := {| EFFECT_MAPPING_V1 := {[ "Aurora" := 1%positive ]};
               objects := {[ 1%positive := aurora ]}; calls := [] |} in
  let strip := {| updated := true; has_effects := true |} in
  let first := set_effect (fun _ => Ok tt) strip "Aurora" (VInt 50) VNone w0 in
  let second := set_effect (fun _ => Ok tt) strip "Aurora" VNone VNone first.2 in
  first.1 = Ok tt /\ second.1 = Ok tt /\
  catalog_entry w0 "Aurora" = Some aurora /\
  catalog_entry first.2 "Aurora" = Some (<["brightness" := VInt 50]> aurora) /\
  catalog_entry first.2 "Aurora" <> catalog_entry w0 "Aurora" /\
  arg <$> calls second.2
  = [ <["brightness" := VInt 50]> aurora; <["brightness" := VInt 50]> aurora ] /\
  (forall c, c ∈ calls second.2 -> arg c !! "brightness" = Some (VInt 50)).
Proof.
  intros aurora w0 strip first second.
  split; [reflexivity|]. split; [reflexivity|]. split; [reflexivity|].
  split; [reflexivity|]. split; [|split; [reflexivity|]].
  - intros H. apply (f_equal (fun o => o ≫= (.!! "brightness"))) in H.
    vm_compute in H. discriminate.
  - intros c Hc. vm_compute in Hc.
    apply elem_of_cons in Hc as [->|Hc]; [reflexivity|].
    apply elem_of_cons in Hc as [->|Hc]; [reflexivity|].
    by apply elem_of_nil in Hc.
Qed.

End Effects.

(** ** More on slugs and the registry *)

Section Registry_invariants.
Import KasaModule.

(** The three passes of the slug, read on the first character. *)
Lemma slugified_name_cons c name :
  _slugified_name (String c name)
  = String (if decide (c = " "%char \/ c = "'"%char) then "_"%char
            else lower_char c) (_slugified_name name).
Proof.
  unfold _slugified_name. cbn [lower replace]. f_equal. apply slug_one_char.
Qed.

(** What a slug character looks like, whatever it came from: checked on
    each of the 256 characters. *)
Lemma slug_char_shape c :
  let c' := if decide (c = " "%char \/ c = "'"%char) then "_"%char
            else lower_char c in
  Ascii.eqb c' " " = false /\ Ascii.eqb c' "'" = false /\
  ((65 <=? nat_of_ascii c') && (nat_of_ascii c' <=? 90))%nat = false /\
  (if decide (c' = " "%char \/ c' = "'"%char) then "_"%char
   else lower_char c') = c'.
Proof.
  destruct c as [[] [] [] [] [] [] [] []]; vm_compute; done.
Qed.

(** X1: the slug of a slug is the slug itself, so a feature may be named by
    its own slug without changing its identity. *)
Theorem slugified_name_idempotent (name : string) :
  _slugified_name (_slugified_name name) = _slugified_name name.
Proof.
  induction name as [|c name IH]; [done|].
  rewrite !slugified_name_cons, IH. f_equal.
  apply (slug_char_shape c).
Qed.

(** X2: a slug contains no space, no apostrophe and no ASCII capital
    letter. *)
Theorem slugified_name_alphabet (name : string) (c : ascii) :
  c ∈ String.list_ascii_of_string (_slugified_name name) ->
  c <> " "%char /\ c <> "'"%char /\ ~ (65 <= nat_of_ascii c <= 90)%nat.
Proof.
  induction name as [|c0 name IH].
  - intros H. by apply elem_of_nil in H.
  - rewrite slugified_name_cons. cbn [String.list_ascii_of_string].
    intros [->|H]%elem_of_cons; [|by apply IH].
    destruct (slug_char_shape c0) as (Hsp & Hap & Hup & _).
    apply Ascii.eqb_neq in Hsp, Hap. split; [done|]. split; [done|].
    intros [H1 H2]. apply Nat.leb_le in H1, H2.
    cbv zeta in Hup. rewrite H1, H2 in Hup. done.
Qed.

Lemma slugified_name_alphabet_witness :
  let slug := _slugified_name "Today's Energy" in
  slug = "today_s_energy" /\
  ("s"%char <> " "%char /\ "s"%char <> "'"%char /\
   ~ (65 <= nat_of_ascii "s" <= 90)%nat).
Proof.
  intros slug. split; [reflexivity|].
  apply (slugified_name_alphabet "Today's Energy" "s").
  change (_slugified_name "Today's Energy") with "today_s_energy".
  cbn [String.list_ascii_of_string].
  rewrite !elem_of_cons. do 6 right. by left.
Defined.

(** X3: whatever [_add_feature] answers, the module keeps its name, every
    entry the registry had is still there with the same feature (nothing
    is replaced or removed), the keys are the old keys and the slug of the
    feature, and if every key was the slug of its feature's name before,
    it is so afterwards.  A module starts with an empty registry, which
    has that property. *)
Theorem add_feature_keeps_registry_invariants :
  (forall module k, _module_features (__init__ module) !! k = None) /\
  (forall (self self' : t) (feature : Feature) (r : result unit),
      _add_feature feature self = (r, self') ->
      _module self' = _module self /\
      _module_features self ⊆ _module_features self' /\
      dom (_module_features self')
      = dom (_module_features self) ∪ {[ _slugified_name (name feature) ]} /\
      ((forall k f, _module_features self !! k = Some f ->
                    k = _slugified_name (name f)) ->
       (forall k f, _module_features self' !! k = Some f ->
                    k = _slugified_name (name f)))).
Proof.
  split; [done|].
  intros self self' feature r. unfold _add_feature.
  unfold mbind, M_bind, bind, get_state, raise, modify.
  set (slug := _slugified_name (name feature)).
  case_decide as Hd; intros [= <- <-].
  - split; [done|]. split; [done|]. split; [|done].
    apply elem_of_dom in Hd. apply set_eq. intros x.
    rewrite elem_of_union, elem_of_singleton. split; [tauto|].
    by intros [?| ->].
  - simpl. split; [done|].
    assert (Hfree : _module_features self !! slug = None).
    { destruct (_module_features self !! slug) eqn:E; [|done].
      destruct Hd. eauto. }
    split; [by apply insert_subseteq|]. split; [rewrite dom_insert_L; apply union_comm_L|].
    intros Hinv k f. rewrite lookup_insert.
    case_decide as Hk; [|apply Hinv].
    intros [= <-]. done.
Qed.

Lemma add_feature_keeps_registry_invariants_witness :
  let f1 := {| name := "Total Energy"; attribute := "emeter_total";
               kind := Sensor |} in
  let f2 := {| name := "Today's consumption"; attribute := "emeter_today";
               kind := Sensor |} in
  let m1 := (_add_feature f1 (__init__ "emeter")).2 in
  let m2 := (_add_feature f2 m1).2 in
  dom (_module_features m2)
  = dom (_module_features m1) ∪ {[ _slugified_name "Today's consumption" ]} /\
  _module_features m1 ⊆ _module_features m2.
Proof.
  intros f1 f2 m1 m2.
  destruct (proj2 add_feature_keeps_registry_invariants m1 m2 f2
              (_add_feature f2 m1).1) as (_ & Hsub & Hdom & _).
  - reflexivity.
  - split; [exact Hdom|exact Hsub].
Defined.

(** X4: once a feature has been offered to [_add_feature], offering any
    feature with the same slug (the same feature again, or another name
    that slugifies alike) is refused and changes nothing: the first
    registration stands. *)
Theorem add_feature_first_registration_stands (self : t) (f g : Feature) :
  _slugified_name (name g) = _slugified_name (name f) ->
  let after := (_add_feature f self).2 in
  _add_feature g after
  = (Raise (KasaException
              ("Duplicate name detected " +:+ _slugified_name (name f))),
     after) /\
  (_module_features self !! _slugified_name (name f) = None ->
   _module_features after !! _slugified_name (name f) = Some f).
Proof.
  intros Hslug after.
  assert (Hin : is_Some (_module_features after !! _slugified_name (name f))).
  { subst after. unfold _add_feature.
    unfold mbind, M_bind, bind, get_state, raise, modify.
    case_decide as Hd; simpl; [done|]. rewrite lookup_insert_eq. eauto. }
  split.
  - unfold _add_feature at 1. rewrite Hslug.
    unfold mbind, M_bind, bind, get_state, raise.
    by rewrite decide_True.
  - intros Hfree. subst after. unfold _add_feature.
    unfold mbind, M_bind, bind, get_state, raise, modify.
    rewrite decide_False by (rewrite Hfree; by intros [? ?]).
    simpl. by rewrite lookup_insert_eq.
Qed.

Lemma add_feature_first_registration_stands_witness :
  let f := {| name := "Total Energy"; attribute := "emeter_total";
              kind := Sensor |} in
  let g := {| name := "total_energy"; attribute := "other"; kind := Switch |} in
  let after := (_add_feature f (__init__ "emeter")).2 in
  _add_feature g after
  = (Raise (KasaException "Duplicate name detected total_energy"), after) /\
  _module_features after !! "total_energy" = Some f.
Proof.
  intros f g after.
  destruct (add_feature_first_registration_stands (__init__ "emeter") f g
              eq_refl) as [H1 H2].
  split; [exact H1|]. apply H2. reflexivity.
Defined.

End Registry_invariants.

(** ** More on the bulb facade *)

Section Bulb_writes.
Import SmartBulb.

Lemma int_range_variable (self : t) (lo hi : Z) :
  _info self !! "color_temp_range" = Some (VList [VInt lo; VInt hi]) ->
  is_variable_color_temp self = Ok (bool_decide (lo <> hi)) /\
  (lo <> hi ->
   valid_temperature_range self = Ok {| min := VInt lo; max := VInt hi |}).
Proof.
  intros Hct.
  assert (Hv : is_variable_color_temp self = Ok (bool_decide (lo <> hi))).
  { unfold is_variable_color_temp, dict_get_default. rewrite Hct. simpl.
    f_equal. destruct (Z.eqb_spec lo hi) as [->|Hne]; simpl.
    - by rewrite bool_decide_eq_false_2 by (intros H; by apply H).
    - by rewrite bool_decide_eq_true_2. }
  split; [done|]. intros Hne.
  unfold valid_temperature_range. rewrite Hv.
  rewrite bool_decide_eq_true_2 by done. simpl.
  unfold dict_get_default. by rewrite Hct.
Qed.

(** X5: on a device that reports the integer range [[lo, hi]],
    [set_color_temp] with an integer temperature raises the capability
    error when [lo = hi]; otherwise it sends the one request
    [{set_device_info: {color_temp: temp}}] when [lo <= temp <= hi], and
    raises the validation error, sending nothing, when the temperature is
    outside (always, when the range is inverted). *)
Theorem set_color_temp_on_integer_range
    (device : request -> result response) (self : t) (lo hi temp : Z)
    (brightness transition : value) (sent : list request) :
  _info self !! "color_temp_range" = Some (VList [VInt lo; VInt hi]) ->
  set_color_temp device self (VInt temp) brightness transition sent
  = if decide (lo = hi)
    then (Raise (KasaException "Bulb does not support colortemp."), sent)
    else if decide (lo <= temp <= hi)
    then (device {[ "set_device_info" := {[ "color_temp" := VInt temp ]} ]},
          sent ++ [{[ "set_device_info" := {[ "color_temp" := VInt temp ]} ]}])
    else (Raise (ValueError "Temperature should be between {} and {}, was {}"
                   (VList [VInt lo; VInt hi; VInt temp])), sent).
Proof.
  intros Hct. destruct (int_range_variable self lo hi Hct) as [Hv Hr].
  unfold set_color_temp.
  erewrite bind_ok by (unfold lift; by rewrite Hv).
  destruct (decide (lo = hi)) as [->|Hne].
  - by rewrite bool_decide_eq_false_2 by (intros H; by apply H).
  - rewrite bool_decide_eq_true_2 by done. simpl.
    erewrite bind_ok by (unfold lift; by rewrite (Hr Hne)).
    simpl. unfold py_gt. simpl.
    erewrite bind_ok by reflexivity.
    destruct (Z.ltb_spec temp lo) as [Hlo|Hlo].
    + erewrite bind_ok by reflexivity.
      rewrite decide_False by lia. done.
    + erewrite bind_ok by reflexivity.
      destruct (Z.ltb_spec hi temp) as [Hhi|Hhi].
      * rewrite decide_False by lia. done.
      * rewrite decide_True by lia. done.
Qed.

Lemma set_color_temp_on_integer_range_witness :
  let self := {| _info := {[ "color_temp_range" := VList [VInt 2500; VInt 6500] ]};
                 modules := ∅ |} in
  let req t : request := {[ "set_device_info" := {[ "color_temp" := VInt t ]} ]} in
  set_color_temp (fun _ => Ok ∅) self (VInt 2700) VNone VNone []
  = (Ok ∅, [req 2700]) /\
  set_color_temp (fun _ => Ok ∅) self (VInt 9000) VNone VNone []
  = (Raise (ValueError "Temperature should be between {} and {}, was {}"
              (VList [VInt 2500; VInt 6500; VInt 9000])), []).
Proof.
  intros self req. split.
  - exact (set_color_temp_on_integer_range (fun _ => Ok ∅) self 2500 6500 2700
             VNone VNone [] eq_refl).
  - exact (set_color_temp_on_integer_range (fun _ => Ok ∅) self 2500 6500 9000
             VNone VNone [] eq_refl).
Defined.

(** X6: for every blob and every temperature, of any type,
    [set_color_temp] either raises with nothing sent, or sends exactly the
    one request [{set_device_info: {color_temp: temp}}] and answers with
    the device's reply; it sends only when the temperature is variable and
    the temperature is neither below the reported minimum nor above the
    reported maximum.  When the capability is missing the error is the
    capability error, whatever the temperature is. *)
Theorem set_color_temp_sends_only_in_range
    (device : request -> result response) (self : t)
    (temp brightness transition : value) (sent : list request) :
  let run := set_color_temp device self temp brightness transition sent in
  let req : request := {[ "set_device_info" := {[ "color_temp" := temp ]} ]} in
  ((exists e, run = (Raise e, sent)) \/
   (run = (device req, sent ++ [req]) /\
    is_variable_color_temp self = Ok true /\
    exists lo hi,
      valid_temperature_range self = Ok {| min := lo; max := hi |} /\
      py_lt temp lo = Ok false /\ py_gt temp hi = Ok false)) /\
  (is_variable_color_temp self = Ok false ->
   run = (Raise (KasaException "Bulb does not support colortemp."), sent)).
Proof.
  intros run req. subst run. unfold set_color_temp.
  unfold mbind, M_bind, bind, lift, ret, raise.
  destruct (is_variable_color_temp self) as [[|]|e] eqn:Hv; simpl.
  - split; [|done].
    destruct (valid_temperature_range self) as [[lo hi]|e] eqn:Hr; simpl;
      [|left; eauto].
    destruct (py_lt temp lo) as [[|]|e] eqn:Hlo; simpl; [left; eauto| |left; eauto].
    destruct (py_gt temp hi) as [[|]|e] eqn:Hhi; simpl; [left; eauto| |left; eauto].
    right. split; [done|]. split; [done|]. exists lo, hi. done.
  - split; [left; eauto|done].
  - split; [left; eauto|done].
Qed.

(** X6 on a range of 2500..6500 K: a float inside the range is sent as it
    is, a string raises [TypeError] with nothing sent, and a device with
    no range refuses any temperature with the capability error. *)
Lemma set_color_temp_sends_only_in_range_witness :
  let self := {| _info := {[ "color_temp_range" := VList [VInt 2500; VInt 6500] ]};
                 modules := ∅ |} in
  let plain := {| _info := ∅; modules := ∅ |} in
  set_color_temp (fun _ => Ok ∅) self (VNum (NFloat 3000.5)) VNone VNone []
  = (Ok ∅, [{[ "set_device_info" := {[ "color_temp" := VNum (NFloat 3000.5) ]} ]}]) /\
  set_color_temp (fun _ => Ok ∅) self (VStr "warm") VNone VNone []
  = (Raise TypeError, []) /\
  set_color_temp (fun _ => Ok ∅) plain (VStr "warm") VNone VNone []
  = (Raise (KasaException "Bulb does not support colortemp."), []).
Proof.
  intros self plain.
  split; [reflexivity|]. split; [reflexivity|].
  apply (proj2 (set_color_temp_sends_only_in_range (fun _ => Ok ∅) plain
                  (VStr "warm") VNone VNone [])).
  reflexivity.
Defined.

(** X7: every outcome of [set_hsv]: the capability error or a validation
    error with nothing sent, or exactly one request sent and the device's
    reply returned.  A request is sent only from a color device, with an
    integer hue in 0..360, an integer saturation in 0..100 and a value
    that is absent or an integer in 1..100: no unchecked value reaches the
    device. *)
Theorem set_hsv_sends_only_validated
    (device : request -> result response) (self : t)
    (hue saturation val transition : value) (sent : list request) :
  let run := set_hsv device self hue saturation val transition sent in
  (run = (Raise (KasaException "Bulb does not support color."), sent) /\
   _info self !! "hue" = None) \/
  (exists what got, run = (Raise (ValueError what got), sent) /\
                    is_Some (_info self !! "hue")) \/
  (exists payload : gmap string value,
      run = (device {[ "set_device_info" := payload ]},
             sent ++ [{[ "set_device_info" := payload ]}]) /\
      is_Some (_info self !! "hue") /\
      (exists h, as_int hue = Some h /\ 0 <= h <= 360) /\
      (exists s, as_int saturation = Some s /\ 0 <= s <= 100) /\
      (val = VNone \/ exists b, as_int val = Some b /\ 1 <= b <= 100)).
Proof.
  intros run. subst run. unfold set_hsv, is_color.
  destruct (_info self !! "hue") as [h0|] eqn:Hhue.
  2:{ left. rewrite bool_decide_eq_false_2 by (by intros [? ?]). done. }
  right. rewrite bool_decide_eq_true_2 by eauto. simpl.
  destruct (negb (isinstance_int hue) || negb (int_between 0 360 hue)) eqn:Eh.
  { left. eauto 6. }
  destruct (negb (isinstance_int saturation)
            || negb (int_between 0 100 saturation)) eqn:Es.
  { left. eauto 6. }
  apply int_check_passes in Eh, Es.
  destruct (is_none val) eqn:Ev; simpl.
  - right. eexists. split; [reflexivity|].
    split; [eauto|]. split; [done|]. split; [done|]. left. by destruct val.
  - unfold mbind, M_bind, bind, lift, _raise_for_invalid_brightness.
    destruct (negb (isinstance_int val) || negb (int_between 1 100 val)) eqn:Eb.
    + left. eauto 6.
    + apply int_check_passes in Eb. right. eexists. split; [reflexivity|].
      split; [eauto|]. split; [done|]. split; [done|]. by right.
Qed.

(** X8: every outcome of [set_brightness]: the capability error or the
    validation error with nothing sent, or exactly the one request
    [{set_device_info: {brightness: b}}] with [b] an integer in 1..100,
    sent from a device that has the Brightness module. *)
Theorem set_brightness_sends_only_validated
    (device : request -> result response) (self : t)
    (brightness transition : value) (sent : list request) :
  let run := set_brightness device self brightness transition sent in
  let req : request :=
    {[ "set_device_info" := {[ "brightness" := brightness ]} ]} in
  (run = (Raise (KasaException "Bulb is not dimmable."), sent) /\
   "Brightness" ∉ modules self) \/
  (run = (Raise (ValueError "Invalid brightness value: {} (valid range: 1-100%)"
                   brightness), sent) /\
   "Brightness" ∈ modules self) \/
  (run = (device req, sent ++ [req]) /\
   "Brightness" ∈ modules self /\
   exists b, as_int brightness = Some b /\ 1 <= b <= 100).
Proof.
  intros run req. subst run req. unfold set_brightness, is_dimmable.
  destruct (decide ("Brightness" ∈ modules self)) as [Hin|Hout].
  2:{ left. by rewrite bool_decide_eq_false_2. }
  right. rewrite bool_decide_eq_true_2 by done. simpl.
  unfold mbind, M_bind, bind, lift, _raise_for_invalid_brightness.
  destruct (negb (isinstance_int brightness)
            || negb (int_between 1 100 brightness)) eqn:Eb.
  - by left.
  - apply int_check_passes in Eb. right. done.
Qed.

End Bulb_writes.

(** ** Reading the bulb back *)

Section Bulb_reads.
Import SmartBulb.

Lemma effects_get_available (s : string) :
  effects_get AVAILABLE_EFFECTS (VStr s)
  = Ok (if String.eqb "L1" s then "Party"
        else if String.eqb "L2" s then "Relax" else "").
Proof.
  unfold effects_get, AVAILABLE_EFFECTS. cbn [find fst].
  by destruct (String.eqb "L1" s), (String.eqb "L2" s).
Qed.

(** X9: the effect state.  Without the Brightness module [effect] raises
    the not-dimmable error, whatever the blob says of effects.  With it,
    the answer has the four keys brightness, enable, id and name; with no
    effect id in the blob the effect is off with empty id and name; with a
    string id the effect is on exactly when the id is not empty, and the
    name is not empty exactly when the id is one of those [effect_list]
    gives on a device with effects. *)
Theorem effect_state (self : t) :
  ("Brightness" ∉ modules self ->
   effect self = Raise (KasaException "Bulb is not dimmable.")) /\
  ("Brightness" ∈ modules self ->
   forall s : string,
     _info self !! "dynamic_light_effect_id" = Some (VStr s) \/
     (_info self !! "dynamic_light_effect_id" = None /\ s = "") ->
     exists (d : gmap string value) (n : string),
       effect self = Ok d /\
       dom d = {[ "brightness"; "enable"; "id"; "name" ]} /\
       d !! "brightness"
       = Some (dict_get_default (_info self) "brightness" (VInt (-1))) /\
       d !! "enable" = Some (VBool (bool_decide (s <> ""))) /\
       d !! "id" = Some (VStr s) /\
       d !! "name" = Some (VStr n) /\
       (s = "" -> n = "") /\
       (has_effects self = true ->
        exists ids, effect_list self = Some ids /\ (n <> "" <-> s ∈ ids))).
Proof.
  unfold effect, brightness, is_dimmable. split.
  - intros Hout. by rewrite bool_decide_eq_false_2.
  - intros Hin s Hid. rewrite bool_decide_eq_true_2 by done. simpl.
    assert (Hcur : dict_get_default (_info self) "dynamic_light_effect_id"
                     (VStr "") = VStr s).
    { unfold dict_get_default. by destruct Hid as [->|[-> ->]]. }
    rewrite Hcur, effects_get_available.
    cbn [mbind result_bind].
    eexists _, _. split; [reflexivity|].
    split.
    { rewrite !dom_insert_L, dom_singleton_L. apply set_eq. intros k.
      rewrite !elem_of_union, !elem_of_singleton. tauto. }
    split; [done|]. split.
    { rewrite lookup_insert_ne, lookup_insert_ne, lookup_insert_eq by done.
      do 2 f_equal. change (py_eq (VStr s) (VStr "")) with (String.eqb s "").
      destruct (String.eqb_spec s "") as [->|Hne].
      - by rewrite bool_decide_eq_false_2 by (intros H; by apply H).
      - by rewrite bool_decide_eq_true_2. }
    split; [by rewrite lookup_insert_ne, lookup_insert_eq|].
    split; [by rewrite lookup_insert_eq|].
    split; [intros ->; reflexivity|].
    intros Heff. unfold effect_list. rewrite Heff. eexists. split; [done|].
    unfold AVAILABLE_EFFECTS. cbn [fmap list_fmap fst].
    rewrite !elem_of_cons, elem_of_nil.
    destruct (String.eqb_spec "L1" s) as [<-|H1]; [split; [tauto|done]|].
    destruct (String.eqb_spec "L2" s) as [<-|H2]; [split; [tauto|done]|].
    split; [intros H; by destruct H|].
    intros [->|[->|[]]]; [by destruct H1|by destruct H2].
Qed.

Lemma effect_state_witness :
  let self := {| _info := {[ "brightness" := VInt 40;
                             "dynamic_light_effect_enable" := VBool true;
                             "dynamic_light_effect_id" := VStr "L2" ]};
                 modules := {[ "Brightness" ]} |} in
  exists d, effect self = Ok d /\
            d !! "enable" = Some (VBool true) /\
            d !! "name" = Some (VStr "Relax") /\
            effect {| _info := _info self; modules := ∅ |}
            = Raise (KasaException "Bulb is not dimmable.").
Proof.
  intros self.
  assert (Hin : "Brightness" ∈ modules self) by (simpl; set_solver).
  destruct (proj2 (effect_state self) Hin "L2" (or_introl eq_refl))
    as (d & n & Hd & _ & _ & Hen & _ & Hname & _).
  exists d. split; [exact Hd|]. split; [exact Hen|]. split.
  - assert (Hc : effect self
                 = Ok (<["name" := VStr "Relax"]>
                         (<["id" := VStr "L2"]>
                            (<["enable" := VBool true]>
                               {[ "brightness" := VInt 40 ]}))))
      by reflexivity.
    rewrite Hc in Hd. injection Hd as <-. reflexivity.
  - apply (proj1 (effect_state {| _info := _info self; modules := ∅ |})).
    apply not_elem_of_empty.
Defined.

(** A list is not itself with one more item, and two lists that extend
    the same list by one request extend it by the same request. *)
Lemma sent_one_more {A} (sent : list A) (a : A) : sent <> sent ++ [a].
Proof.
  intros H. apply (f_equal length) in H. rewrite length_app in H.
  simpl in H. lia.
Qed.

Lemma sent_same_request (sent : list request) (p q : gmap string value) :
  sent ++ [{[ "set_device_info" := p ]}] = sent ++ [{[ "set_device_info" := q ]}] ->
  p = q.
Proof.
  intros H%app_inv_head.
  apply (f_equal (fun l : list request => l !! 0%nat ≫= (.!! "set_device_info")))
    in H.
  simpl in H. rewrite !lookup_singleton_eq in H. by apply (inj Some) in H.
Qed.

(** X10: what [set_hsv] sends is what [hsv] reads.  Once the parameters
    of the request that [set_hsv] sent are merged into the info blob,
    [hsv] returns the hue and the saturation that were set, and as value
    the one that was set or, when none was given, the brightness the blob
    had (0 when it had none); and [color_temp], on a device with a
    variable temperature, reads the 0 the request carried. *)
Theorem set_hsv_then_hsv
    (device : request -> result response) (self : t)
    (hue saturation val transition : value) (sent : list request)
    (r : result response) (payload : gmap string value) :
  set_hsv device self hue saturation val transition sent
  = (r, sent ++ [{[ "set_device_info" := payload ]}]) ->
  let self' := {| _info := payload ∪ _info self; modules := modules self |} in
  hsv self'
  = Ok {| HSV.hue := hue; HSV.saturation := saturation;
          HSV.value := if is_none val
                       then dict_get_default (_info self) "brightness" (VInt 0)
                       else val |} /\
  (is_variable_color_temp self = Ok true -> color_temp self' = Ok (VInt 0)).
Proof.
  intros Hrun self'.
  assert (Hp : payload
               = (if negb (is_none val)
                  then <["brightness" := val]>
                         (<["saturation" := saturation]>
                            (<["hue" := hue]> {[ "color_temp" := VInt 0 ]}))
                  else <["saturation" := saturation]>
                         (<["hue" := hue]> {[ "color_temp" := VInt 0 ]}))).
  { revert Hrun. unfold set_hsv.
    destruct (negb (is_color self)); [intros [= _ H]; by destruct (sent_one_more _ _ H)|].
    destruct (negb (isinstance_int hue) || negb (int_between 0 360 hue));
      [intros [= _ H]; by destruct (sent_one_more _ _ H)|].
    destruct (negb (isinstance_int saturation)
              || negb (int_between 0 100 saturation));
      [intros [= _ H]; by destruct (sent_one_more _ _ H)|].
    unfold mbind, M_bind, bind, lift, ret, query.
    destruct (negb (is_none val)).
    - destruct (_raise_for_invalid_brightness val);
        [|intros [= _ H]; by destruct (sent_one_more _ _ H)].
      intros [= _ H]. symmetry. by apply (sent_same_request sent).
    - intros [= _ H]. symmetry. by apply (sent_same_request sent). }
  subst self'.
  set (info' := payload ∪ _info self).
  assert (Hhue : info' !! "hue" = Some hue).
  { subst info' payload. apply lookup_union_Some_l.
    destruct (negb (is_none val)); by simplify_map_eq. }
  assert (Hsat : info' !! "saturation" = Some saturation).
  { subst info' payload. apply lookup_union_Some_l.
    destruct (negb (is_none val)); by simplify_map_eq. }
  assert (Hct : info' !! "color_temp" = Some (VInt 0)).
  { subst info' payload. apply lookup_union_Some_l.
    destruct (negb (is_none val)); by simplify_map_eq. }
  assert (Hrange : info' !! "color_temp_range"
                   = _info self !! "color_temp_range").
  { subst info' payload. apply lookup_union_r.
    destruct (negb (is_none val)); by simplify_map_eq. }
  assert (Hbr : dict_get_default info' "brightness" (VInt 0)
                = if is_none val
                  then dict_get_default (_info self) "brightness" (VInt 0)
                  else val).
  { subst info' payload. unfold dict_get_default.
    destruct (is_none val); simpl.
    - rewrite lookup_union_r by (by simplify_map_eq). done.
    - erewrite lookup_union_Some_l by (by simplify_map_eq). done. }
  split.
  - unfold hsv, is_color. cbn [_info].
    rewrite bool_decide_eq_true_2 by (rewrite Hhue; eauto).
    cbn [negb]. unfold dict_get_default at 1 2. by rewrite Hhue, Hsat, Hbr.
  - intros Hvar. unfold color_temp.
    assert (is_variable_color_temp {| _info := info'; modules := modules self |}
            = Ok true) as ->.
    { rewrite <- Hvar. unfold is_variable_color_temp, dict_get_default.
      cbn [_info]. by rewrite Hrange. }
    cbn [mbind result_bind negb _info]. unfold dict_get_default. by rewrite Hct.
Qed.

Lemma set_hsv_then_hsv_witness :
  let self := {| _info := {[ "hue" := VInt 0; "brightness" := VInt 40 ]};
                 modules := ∅ |} in
  let payload : gmap string value :=
    <["saturation" := VInt 50]>
      (<["hue" := VInt 120]> {[ "color_temp" := VInt 0 ]}) in
  hsv {| _info := payload ∪ _info self; modules := ∅ |}
  = Ok {| HSV.hue := VInt 120; HSV.saturation := VInt 50;
          HSV.value := VInt 40 |}.
Proof.
  intros self payload.
  exact (proj1 (set_hsv_then_hsv (fun _ => Ok ∅) self (VInt 120) (VInt 50)
                  VNone VNone [] (Ok ∅) payload eq_refl)).
Defined.

(** X11: what [set_brightness] and [set_color_temp] send is what
    [brightness] and [color_temp] read: with the parameters of the sent
    request merged into the info blob, the getter returns the value that
    was set. *)
Theorem set_then_get_brightness_and_color_temp
    (device : request -> result response) (self : t)
    (x transition : value) (sent : list request)
    (r : result response) (payload : gmap string value) :
  let self' := {| _info := payload ∪ _info self; modules := modules self |} in
  (set_brightness device self x transition sent
   = (r, sent ++ [{[ "set_device_info" := payload ]}]) ->
   brightness self' = Ok x) /\
  (forall b,
      set_color_temp device self x b transition sent
      = (r, sent ++ [{[ "set_device_info" := payload ]}]) ->
      color_temp self' = Ok x).
Proof.
  intros self'. split.
  - unfold set_brightness.
    destruct (negb (is_dimmable self)) eqn:Hdim;
      [intros [= _ H]; by destruct (sent_one_more _ _ H)|].
    unfold mbind, M_bind, bind, lift, query.
    destruct (_raise_for_invalid_brightness x);
      [|intros [= _ H]; by destruct (sent_one_more _ _ H)].
    intros [= _ H]. apply sent_same_request in H. subst payload.
    subst self'. unfold brightness.
    change (is_dimmable {| _info := _; modules := modules self |})
      with (is_dimmable self).
    rewrite Hdim. unfold dict_get_default. cbn [_info].
    erewrite lookup_union_Some_l by apply lookup_singleton_eq. done.
  - intros b. unfold set_color_temp.
    unfold mbind, M_bind, bind, lift, ret, raise, query.
    destruct (is_variable_color_temp self) as [[|]|e] eqn:Hv; simpl;
      [|intros [= _ H]; by destruct (sent_one_more _ _ H)..].
    destruct (valid_temperature_range self) as [[lo hi]|e]; simpl;
      [|intros [= _ H]; by destruct (sent_one_more _ _ H)].
    destruct (py_lt x lo) as [[|]|e]; simpl;
      [intros [= _ H]; by destruct (sent_one_more _ _ H)|
      |intros [= _ H]; by destruct (sent_one_more _ _ H)].
    destruct (py_gt x hi) as [[|]|e]; simpl;
      [intros [= _ H]; by destruct (sent_one_more _ _ H)|
      |intros [= _ H]; by destruct (sent_one_more _ _ H)].
    intros [= _ H]. apply sent_same_request in H. subst payload.
    subst self'. unfold color_temp.
    assert (is_variable_color_temp
              {| _info := {[ "color_temp" := x ]} ∪ _info self;
                 modules := modules self |} = Ok true) as ->.
    { rewrite <- Hv. unfold is_variable_color_temp, dict_get_default.
      cbn [_info]. rewrite lookup_union_r; [done|].
      by apply lookup_singleton_ne. }
    cbn [mbind result_bind negb _info]. unfold dict_get_default.
    erewrite lookup_union_Some_l by apply lookup_singleton_eq. done.
Qed.

Lemma set_then_get_brightness_and_color_temp_witness :
  let dim := {| _info := {[ "brightness" := VInt 40 ]};
                modules := {[ "Brightness" ]} |} in
  let warm := {| _info := {[ "color_temp_range" := VList [VInt 2500; VInt 6500] ]};
                 modules := ∅ |} in
  brightness {| _info := {[ "brightness" := VInt 75 ]} ∪ _info dim;
                modules := modules dim |} = Ok (VInt 75) /\
  color_temp {| _info := {[ "color_temp" := VInt 2700 ]} ∪ _info warm;
                modules := modules warm |} = Ok (VInt 2700).
Proof.
  intros dim warm. split.
  - exact (proj1 (set_then_get_brightness_and_color_temp (fun _ => Ok ∅) dim
                    (VInt 75) VNone [] (Ok ∅) {[ "brightness" := VInt 75 ]})
             eq_refl).
  - exact (proj2 (set_then_get_brightness_and_color_temp (fun _ => Ok ∅) warm
                    (VInt 2700) VNone [] (Ok ∅) {[ "color_temp" := VInt 2700 ]})
             VNone eq_refl).
Defined.

End Bulb_reads.

(** ** More on the energy statistics *)

Section Statistics_more.
Import Emeter.

Implicit Types (data pre post : list record) (e entry first : record).
Implicit Types (d acc : pydict) (k v x scale : num).

(** *** The keys of the result *)

Lemma dict_set_keys acc k x :
  (dict_set acc k x).*1
  = if existsb (fun k' => num_eqb k' k) acc.*1 then acc.*1 else acc.*1 ++ [k].
Proof.
  induction acc as [|[k' v'] acc IH]; [done|].
  cbn [dict_set]. rewrite fmap_cons. cbn [existsb fst].
  destruct (num_eqb k' k); [done|].
  rewrite fmap_cons, IH. cbn [orb fst]. by destruct (existsb _ _).
Qed.

Lemma dict_set_keys_distinct acc k x :
  (forall i j ki kj, acc.*1 !! i = Some ki -> acc.*1 !! j = Some kj ->
                     num_eqb ki kj = true -> i = j) ->
  forall i j ki kj,
    (dict_set acc k x).*1 !! i = Some ki ->
    (dict_set acc k x).*1 !! j = Some kj ->
    num_eqb ki kj = true -> i = j.
Proof.
  intros Hacc. rewrite dict_set_keys.
  destruct (existsb _ _) eqn:Hex; [exact Hacc|].
  assert (Hnew : forall i ki, acc.*1 !! i = Some ki -> num_eqb ki k = false).
  { intros i ki Hi. destruct (num_eqb ki k) eqn:E; [|done].
    assert (existsb (fun k' => num_eqb k' k) acc.*1 = true); [|congruence].
    apply existsb_exists. exists ki. split; [|done].
    apply list_elem_of_In, list_elem_of_lookup. eauto. }
  intros i j ki kj Hi Hj Heq.
  apply lookup_app_Some in Hi as [Hi|[Hil Hi]];
    apply lookup_app_Some in Hj as [Hj|[Hjl Hj]].
  - eauto.
  - apply list_lookup_singleton_Some in Hj as [Hj0 <-].
    rewrite (Hnew i ki Hi) in Heq. done.
  - apply list_lookup_singleton_Some in Hi as [Hi0 <-].
    apply num_eqb_sym in Heq. rewrite (Hnew j kj Hj) in Heq. done.
  - apply list_lookup_singleton_Some in Hi as [Hi0 _].
    apply list_lookup_singleton_Some in Hj as [Hj0 _]. lia.
Qed.

Lemma convert_all_keys entry_key value_key scale data :
  forall acc d,
    convert_all entry_key value_key scale data acc = Ok d ->
    (forall i j ki kj, acc.*1 !! i = Some ki -> acc.*1 !! j = Some kj ->
                       num_eqb ki kj = true -> i = j) ->
    (forall i j ki kj, d.*1 !! i = Some ki -> d.*1 !! j = Some kj ->
                       num_eqb ki kj = true -> i = j) /\
    (length d <= length acc + length data)%nat /\
    (forall k, k ∈ d.*1 ->
               k ∈ acc.*1 \/ exists e, e ∈ data /\ e !! entry_key = Some k).
Proof.
  induction data as [|entry rest IH]; intros acc d.
  - intros [= <-] Hacc. split; [done|]. split; [simpl; lia|]. eauto.
  - simpl. unfold convert_entry, dict_item.
    destruct (entry !! entry_key) as [k|] eqn:Hk; [|done]. simpl.
    destruct (entry !! value_key) as [v|] eqn:Hv; [|done]. simpl.
    destruct (num_mul v scale) as [x|] eqn:Hx; [|done]. simpl.
    intros Hd Hacc.
    destruct (IH _ _ Hd (dict_set_keys_distinct acc k x Hacc))
      as (Hdist & Hlen & Hfrom).
    split; [done|]. split.
    + assert (length (dict_set acc k x) <= S (length acc))%nat; [|lia].
      rewrite <- !(length_fmap fst), dict_set_keys.
      destruct (existsb _ _); [lia|]. rewrite length_app. simpl. lia.
    + intros k' Hin. destruct (Hfrom k' Hin) as [Hold|(e & He & Hek)].
      * rewrite dict_set_keys in Hold.
        destruct (existsb _ _); [by left|].
        apply elem_of_app in Hold as [Hold|Hnew]; [by left|].
        apply list_elem_of_singleton in Hnew as ->.
        right. exists entry. split; [apply list_elem_of_here|done].
      * right. exists e. split; [by apply list_elem_of_further|done].
Qed.

(** X12: in the mapping the whole-series mode returns, no two entries
    have keys that are equal as numbers, there are at most as many
    entries as records, and every key is the period of some record. *)
Theorem convert_stat_data_whole_series_keys data entry_key (kwh : bool) d :
  _convert_stat_data data entry_key kwh None = Ok d ->
  (forall i j ki kj, d.*1 !! i = Some ki -> d.*1 !! j = Some kj ->
                     num_eqb ki kj = true -> i = j) /\
  (length d <= length data)%nat /\
  (forall k, k ∈ d.*1 -> exists e, e ∈ data /\ e !! entry_key = Some k).
Proof.
  unfold _convert_stat_data. destruct data as [|first rest].
  - intros [= <-]. split; [intros i j ki kj Hi; by rewrite fmap_nil, lookup_nil in Hi|].
    split; [done|]. by intros k ?%elem_of_nil.
  - destruct (infer_unit first kwh) as [value_key scale]. intros Hd.
    destruct (convert_all_keys _ _ _ _ _ _ Hd) as (Hdist & Hlen & Hfrom).
    { intros i j ki kj Hi. by rewrite fmap_nil, lookup_nil in Hi. }
    split; [done|]. split; [done|].
    intros k Hin. destruct (Hfrom k Hin) as [Hnil|?]; [|done].
    by apply elem_of_nil in Hnil.
Qed.

Lemma convert_stat_data_whole_series_keys_witness :
  let data : list record :=
    [ {[ "day" := NInt 1; "energy_wh" := NInt 1000 ]};
      {[ "day" := NFloat 1; "energy_wh" := NInt 3000 ]} ] in
  let d := [(NInt 1, NFloat 3)] in
  _convert_stat_data data "day" true None = Ok d /\
  (length d <= length data)%nat.
Proof.
  intros data d. split; [reflexivity|].
  exact (proj1 (proj2 (convert_stat_data_whole_series_keys data "day" true d
                         eq_refl))).
Defined.

(** *** Records that lack a field *)

Lemma convert_all_app entry_key value_key scale pre :
  Forall (fun e => exists k v x,
            e !! entry_key = Some k /\
            e !! value_key = Some v /\ num_mul v scale = Ok x) pre ->
  forall others acc,
    exists acc',
      convert_all entry_key value_key scale (pre ++ others) acc
      = convert_all entry_key value_key scale others acc'.
Proof.
  induction 1 as [|e pre (k & v & x & Hk & Hv & Hx) _ IH]; intros others acc.
  - by exists acc.
  - destruct (IH others (dict_set acc k x)) as [acc' Hacc'].
    exists acc'. simpl. unfold convert_entry, dict_item.
    rewrite Hk, Hv. simpl. rewrite Hx. simpl. exact Hacc'.
Qed.

(** X13: in whole-series mode the first record, from the left, that
    lacks a field stops the conversion with a [KeyError] naming the field:
    the period field when that is missing, otherwise the energy field
    inferred from the FIRST record.  So a series that starts in Wh and
    then has a record without [energy_wh] raises
    [KeyError("energy_wh")]. *)
Theorem convert_stat_data_whole_series_missing_field
    entry_key (kwh : bool) first rest pre e post :
  first :: rest = pre ++ e :: post ->
  let value_key := (infer_unit first kwh).1 in
  let scale := (infer_unit first kwh).2 in
  Forall (fun e' => exists k v x,
            e' !! entry_key = Some k /\
            e' !! value_key = Some v /\ num_mul v scale = Ok x) pre ->
  (e !! entry_key = None ->
   _convert_stat_data (first :: rest) entry_key kwh None
   = Raise (KeyError entry_key)) /\
  (is_Some (e !! entry_key) -> e !! value_key = None ->
   _convert_stat_data (first :: rest) entry_key kwh None
   = Raise (KeyError value_key)).
Proof.
  intros Hsplit value_key scale Hpre.
  assert (Hrun : _convert_stat_data (first :: rest) entry_key kwh None
                 = convert_all entry_key value_key scale (pre ++ e :: post) []).
  { subst value_key scale. unfold _convert_stat_data. rewrite <- Hsplit.
    by destruct (infer_unit first kwh). }
  rewrite Hrun.
  destruct (convert_all_app entry_key value_key scale pre Hpre (e :: post) [])
    as [acc' ->].
  simpl. unfold convert_entry, dict_item. split.
  - by intros ->.
  - intros [k ->] ->. done.
Qed.

Lemma convert_stat_data_whole_series_missing_field_witness :
  let data : list record :=
    [ {[ "day" := NInt 1; "energy_wh" := NInt 1000 ]};
      {[ "day" := NInt 2; "energy" := NFloat 2 ]} ] in
  _convert_stat_data data "day" true None = Raise (KeyError "energy_wh").
Proof.
  intros data.
  apply (proj2 (convert_stat_data_whole_series_missing_field "day" true
                  {[ "day" := NInt 1; "energy_wh" := NInt 1000 ]}
                  [ {[ "day" := NInt 2; "energy" := NFloat 2 ]} ]
                  [ {[ "day" := NInt 1; "energy_wh" := NInt 1000 ]} ]
                  {[ "day" := NInt 2; "energy" := NFloat 2 ]} []
                  eq_refl
                  ltac:(repeat constructor;
                        exists (NInt 1), (NInt 1000), (NFloat 1);
                        repeat split; reflexivity))).
  - by exists (NInt 2).
  - reflexivity.
Defined.

(** X14: in single-key mode the records are met from the right.  When
    every record after [e] has a period other than the key, a missing
    period field in [e] raises [KeyError] naming it, and a matching [e]
    without the inferred energy field raises [KeyError] naming that field,
    whatever the records before [e] are (they are not looked at). *)
Theorem convert_stat_data_single_key_missing_field
    entry_key (kwh : bool) (key : Z) first rest pre e post :
  first :: rest = pre ++ e :: post ->
  Forall (fun e' => exists k', e' !! entry_key = Some k' /\
                               num_eqb k' (NInt key) = false) post ->
  (e !! entry_key = None ->
   _convert_stat_data (first :: rest) entry_key kwh (Some key)
   = Raise (KeyError entry_key)) /\
  (forall k, e !! entry_key = Some k -> num_eqb k (NInt key) = true ->
             e !! (infer_unit first kwh).1 = None ->
             _convert_stat_data (first :: rest) entry_key kwh (Some key)
             = Raise (KeyError (infer_unit first kwh).1)).
Proof.
  intros Hsplit Hpost. unfold _convert_stat_data.
  destruct (infer_unit first kwh) as [value_key scale]. cbn [fst].
  rewrite Hsplit, reverse_app, reverse_cons, <- app_assoc.
  rewrite find_key_skip by by apply Forall_reverse.
  simpl. unfold convert_entry, dict_item. split.
  - by intros ->.
  - intros k -> Heq ->. simpl. by rewrite Heq.
Qed.

Lemma convert_stat_data_single_key_missing_field_witness :
  let data : list record :=
    [ {[ "day" := NInt 2; "energy_wh" := NInt 1000 ]};
      {[ "energy_wh" := NInt 2000 ]};
      {[ "day" := NInt 3; "energy_wh" := NInt 3000 ]} ] in
  _convert_stat_data data "day" true (Some 2) = Raise (KeyError "day") /\
  _convert_stat_data data "day" true (Some 3) = Ok [(NInt 3, NFloat 3)].
Proof.
  intros data. split; [|reflexivity].
  apply (proj1 (convert_stat_data_single_key_missing_field "day" true 2
                  {[ "day" := NInt 2; "energy_wh" := NInt 1000 ]}
                  [ {[ "energy_wh" := NInt 2000 ]};
                    {[ "day" := NInt 3; "energy_wh" := NInt 3000 ]} ]
                  [ {[ "day" := NInt 2; "energy_wh" := NInt 1000 ]} ]
                  {[ "energy_wh" := NInt 2000 ]}
                  [ {[ "day" := NInt 3; "energy_wh" := NInt 3000 ]} ]
                  eq_refl
                  ltac:(repeat constructor; exists (NInt 3);
                        split; reflexivity))).
  reflexivity.
Defined.

(** *** The two modes agree *)

(** In a list whose records all have the period field, either no period
    equals the key or some record is the last whose period does. *)
Lemma last_match_split entry_key (key : num) data :
  Forall (fun e => is_Some (e !! entry_key)) data ->
  Forall (fun e' => exists k', e' !! entry_key = Some k' /\
                               num_eqb k' key = false) data \/
  exists pre e post k,
    data = pre ++ e :: post /\ e !! entry_key = Some k /\
    num_eqb k key = true /\
    Forall (fun e' => exists k', e' !! entry_key = Some k' /\
                                 num_eqb k' key = false) post.
Proof.
  induction 1 as [|e0 rest [k0 Hk0] _ IH]; [by left|].
  destruct IH as [Hnone|(pre & e & post & k & -> & Hk & Heq & Hpost)].
  - destruct (num_eqb k0 key) eqn:E.
    + right. exists [], e0, rest, k0. done.
    + left. constructor; eauto.
  - right. exists (e0 :: pre), e, post, k. done.
Qed.

Lemma convert_stat_data_modes_agree_aux data entry_key (kwh : bool) (key : Z) :
  (forall first, head data = Some first ->
     Forall (fun e => exists k v x,
               e !! entry_key = Some k /\
               e !! (infer_unit first kwh).1 = Some v /\
               num_mul v (infer_unit first kwh).2 = Ok x) data) ->
  exists one all,
    _convert_stat_data data entry_key kwh (Some key) = Ok one /\
    _convert_stat_data data entry_key kwh None = Ok all /\
    dict_get one (NInt key) = dict_get all (NInt key).
Proof.
  destruct data as [|first rest]; [by exists [], []|].
  intros Hwf. specialize (Hwf first eq_refl).
  destruct (convert_stat_data_single_key_aux (first :: rest) entry_key kwh key
              first rest eq_refl) as [Hhit Hmiss].
  assert (Hrun : _convert_stat_data (first :: rest) entry_key kwh None
                 = convert_all entry_key (infer_unit first kwh).1
                     (infer_unit first kwh).2 (first :: rest) []).
  { unfold _convert_stat_data. by destruct (infer_unit first kwh). }
  destruct (convert_all_lookup entry_key _ _ _ Hwf [])
    as (all & Hall & Hlast & Hother).
  rewrite Hrun, Hall.
  destruct (last_match_split entry_key (NInt key) (first :: rest))
    as [Hnone|(pre & e & post & k & Hsplit & Hk & Heq & Hpost)].
  { eapply Forall_impl; [exact Hwf|]. intros e (k & ? & ? & -> & _). eauto. }
  - exists [], all. rewrite (Hmiss Hnone), (Hother _ Hnone). done.
  - assert (He : e ∈ first :: rest).
    { rewrite Hsplit. apply elem_of_app. right. apply list_elem_of_here. }
    rewrite Forall_forall in Hwf.
    destruct (Hwf e He) as (k' & v & x & Hk' & Hv & Hx).
    exists [(k, x)], all.
    rewrite (Hhit pre e post k v x Hsplit Hk Heq Hpost Hv Hx).
    rewrite (Hlast (NInt key) pre e post k v x Hsplit Hk Heq Hpost Hv Hx).
    simpl. by rewrite Heq.
Qed.

(** X15: single-key mode is a shortcut for whole-series mode.  On a
    series whose records all have the period field and a convertible
    energy in the inferred field, both modes succeed and looking the key
    up in the one-entry (or empty) mapping of single-key mode gives what
    looking it up in the whole-series mapping gives. *)
Theorem convert_stat_data_modes_agree data entry_key (kwh : bool) (key : Z) :
  (forall first, head data = Some first ->
     Forall (fun e => exists k v x,
               e !! entry_key = Some k /\
               e !! (infer_unit first kwh).1 = Some v /\
               num_mul v (infer_unit first kwh).2 = Ok x) data) ->
  exists one all,
    _convert_stat_data data entry_key kwh (Some key) = Ok one /\
    _convert_stat_data data entry_key kwh None = Ok all /\
    (length one <= 1)%nat /\
    dict_get one (NInt key) = dict_get all (NInt key).
Proof.
  intros Hwf.
  destruct (convert_stat_data_modes_agree_aux data entry_key kwh key Hwf)
    as (one & all & Hone & Hall & Hget).
  exists one, all. split; [done|]. split; [done|]. split; [|done].
  destruct data as [|first rest];
    [simpl in Hone; injection Hone as <-; simpl; lia|].
  specialize (Hwf first eq_refl).
  destruct (convert_stat_data_single_key_aux (first :: rest) entry_key kwh key
              first rest eq_refl) as [Hhit Hmiss].
  destruct (last_match_split entry_key (NInt key) (first :: rest))
    as [Hnone|(pre & e & post & k & Hsplit & Hk & Heq & Hpost)].
  { eapply Forall_impl; [exact Hwf|]. intros e (k & ? & ? & -> & _). eauto. }
  - rewrite (Hmiss Hnone) in Hone. injection Hone as <-. simpl. lia.
  - assert (He : e ∈ first :: rest).
    { rewrite Hsplit. apply elem_of_app. right. apply list_elem_of_here. }
    rewrite Forall_forall in Hwf.
    destruct (Hwf e He) as (k' & v & x & Hk' & Hv & Hx).
    rewrite (Hhit pre e post k v x Hsplit Hk Heq Hpost Hv Hx) in Hone.
    injection Hone as <-. simpl. lia.
Qed.

Lemma convert_stat_data_modes_agree_witness :
  let data : list record :=
    [ {[ "day" := NInt 1; "energy_wh" := NInt 1000 ]};
      {[ "day" := NInt 2; "energy_wh" := NInt 2000 ]};
      {[ "day" := NInt 1; "energy_wh" := NInt 3000 ]} ] in
  exists one all,
    _convert_stat_data data "day" true (Some 1) = Ok one /\
    _convert_stat_data data "day" true None = Ok all /\
    (length one <= 1)%nat /\
    dict_get one (NInt 1) = dict_get all (NInt 1).
Proof.
  intros data.
  apply (convert_stat_data_modes_agree data "day" true 1).
  intros first [= <-].
  repeat constructor;
    [ exists (NInt 1), (NInt 1000), (NFloat 1)
    | exists (NInt 2), (NInt 2000), (NFloat 2)
    | exists (NInt 1), (NInt 3000), (NFloat 3) ];
    repeat split; reflexivity.
Defined.

(** X16: today's (this month's) consumption is the entry of the daily
    (monthly) statistics for the current day (month).  When the raw
    query returns under [day_list] ([month_list]) the list the module
    holds, and its records all have the period field and a convertible
    energy in the inferred field, [get_daystat] ([get_monthstat]) in kWh
    returns a mapping and [emeter_today] ([emeter_this_month]) returns
    what that mapping has for the current day (month), [None] included. *)
Theorem emeter_today_is_todays_daystat (self : t) (now : datetime) :
  (forall get_raw_daystat year month_arg reply,
      get_raw_daystat year month_arg = Ok reply ->
      reply !! "day_list" = Some (daily_data self) ->
      (forall first, head (daily_data self) = Some first ->
         Forall (fun e => exists k v x,
                   e !! "day" = Some k /\
                   e !! (infer_unit first true).1 = Some v /\
                   num_mul v (infer_unit first true).2 = Ok x)
                (daily_data self)) ->
      exists all,
        get_daystat get_raw_daystat year month_arg true = Ok all /\
        emeter_today self now = Ok (dict_get all (NInt (day now)))) /\
  (forall get_raw_monthstat year reply,
      get_raw_monthstat year = Ok reply ->
      reply !! "month_list" = Some (monthly_data self) ->
      (forall first, head (monthly_data self) = Some first ->
         Forall (fun e => exists k v x,
                   e !! "month" = Some k /\
                   e !! (infer_unit first true).1 = Some v /\
                   num_mul v (infer_unit first true).2 = Ok x)
                (monthly_data self)) ->
      exists all,
        get_monthstat get_raw_monthstat year true = Ok all /\
        emeter_this_month self now = Ok (dict_get all (NInt (month now)))).
Proof.
  split.
  - intros get_raw year month_arg reply Hraw Hlist Hwf.
    destruct (convert_stat_data_modes_agree_aux (daily_data self) "day" true
                (day now) Hwf) as (one & all & Hone & Hall & Hget).
    exists all. unfold get_daystat, emeter_today, dict_item.
    rewrite Hraw. simpl. rewrite Hlist. simpl.
    rewrite Hall, Hone. simpl. by rewrite Hget.
  - intros get_raw year reply Hraw Hlist Hwf.
    destruct (convert_stat_data_modes_agree_aux (monthly_data self) "month"
                true (month now) Hwf) as (one & all & Hone & Hall & Hget).
    exists all. unfold get_monthstat, emeter_this_month, dict_item.
    rewrite Hraw. simpl. rewrite Hlist. simpl.
    rewrite Hall, Hone. simpl. by rewrite Hget.
Qed.

Lemma emeter_today_is_todays_daystat_witness :
  let days : list record :=
    [ {[ "day" := NInt 1; "energy_wh" := NInt 1000 ]};
      {[ "day" := NInt 2; "energy_wh" := NInt 2500 ]} ] in
  let self := {| daily_data := days; monthly_data := [] |} in
  let now := {| month := 2; day := 2 |} in
  exists all,
    get_daystat (fun _ _ => Ok {[ "day_list" := days ]}) VNone VNone true
    = Ok all /\
    emeter_today self now = Ok (dict_get all (NInt 2)).
Proof.
  intros days self now.
  apply (proj1 (emeter_today_is_todays_daystat self now)
           (fun _ _ => Ok {[ "day_list" := days ]}) VNone VNone
           {[ "day_list" := days ]} eq_refl);
    [apply lookup_singleton_eq|].
  intros first [= <-].
  repeat constructor;
    [ exists (NInt 1), (NInt 1000), (NFloat 1)
    | exists (NInt 2), (NInt 2500), (NFloat 2.5) ];
    repeat split; reflexivity.
Defined.

End Statistics_more.

(** ** More on light strip effects *)

Section Effects_more.
Import IotLightStrip.

Lemma set_custom_effect_frame
    (device : call -> result unit) (self : t) (effect_dict : loc) (w : world) :
  let run := set_custom_effect device self effect_dict w in
  let c := {| target := "smartlife.iot.lighting_effect";
              cmd := "set_lighting_effect";
              arg := default ∅ (objects w !! effect_dict) |} in
  EFFECT_MAPPING_V1 run.2 = EFFECT_MAPPING_V1 w /\
  objects run.2 = objects w /\
  (updated self = true -> has_effects self = true ->
   run.1 = device c /\ calls run.2 = calls w ++ [c]) /\
  (updated self = true -> has_effects self = false ->
   run.1 = Raise (KasaException "Bulb does not support effects.") /\
   calls run.2 = calls w).
Proof.
  intros run c. subst run c. unfold set_custom_effect, requires_update.
  destruct (updated self), (has_effects self); simpl; repeat split; done.
Qed.

(** X17: [set_custom_effect] never changes the catalog or the effect
    objects.  Before the first update it raises the not-updated error and
    on a device without effects the capability error, with no call made;
    otherwise it makes exactly one call,
    [smartlife.iot.lighting_effect / set_lighting_effect], with the
    content of the effect object as it is, and answers as the device
    does. *)
Theorem set_custom_effect_outcome
    (device : call -> result unit) (self : t) (effect_dict : loc) (w : world) :
  let run := set_custom_effect device self effect_dict w in
  let c := {| target := "smartlife.iot.lighting_effect";
              cmd := "set_lighting_effect";
              arg := default ∅ (objects w !! effect_dict) |} in
  EFFECT_MAPPING_V1 run.2 = EFFECT_MAPPING_V1 w /\
  objects run.2 = objects w /\
  (updated self = false ->
   run = (Raise (KasaException "You need to await update() to access the data"),
          w)) /\
  (updated self = true -> has_effects self = false ->
   run = (Raise (KasaException "Bulb does not support effects."), w)) /\
  (updated self = true -> has_effects self = true ->
   run.1 = device c /\ calls run.2 = calls w ++ [c]).
Proof.
  intros run c. subst run c. unfold set_custom_effect, requires_update.
  destruct (updated self), (has_effects self); simpl; repeat split; done.
Qed.

Lemma set_custom_effect_outcome_witness :
  let w := {| EFFECT_MAPPING_V1 := ∅;
              objects := {[ 7%positive := {[ "name" := VStr "mine" ]} ]};
              calls := [] |} in
  let strip := {| updated := true; has_effects := true |} in
  let run := set_custom_effect (fun _ => Ok tt) strip 7%positive w in
  run.1 = Ok tt /\
  calls run.2 = [ {| target := "smartlife.iot.lighting_effect";
                     cmd := "set_lighting_effect";
                     arg := {[ "name" := VStr "mine" ]} |} ].
Proof.
  intros w strip run.
  exact (proj2 (proj2 (proj2 (proj2
           (set_custom_effect_outcome (fun _ => Ok tt) strip 7%positive w))))
           eq_refl eq_refl).
Defined.

(** X18: without overrides [set_effect] changes neither the catalog nor
    any effect object, whatever the device, the name and the outcome; on
    an updated device with effects and a recognized name it makes exactly
    one call, with the catalog's content for that name. *)
Theorem set_effect_without_overrides_keeps_catalog
    (device : call -> result unit) (self : t) (name : string) (w : world) :
  let run := set_effect device self name VNone VNone w in
  EFFECT_MAPPING_V1 run.2 = EFFECT_MAPPING_V1 w /\
  objects run.2 = objects w /\
  (forall n, catalog_entry run.2 n = catalog_entry w n) /\
  (updated self = true -> has_effects self = true ->
   forall e, catalog_entry w name = Some e ->
     let c := {| target := "smartlife.iot.lighting_effect";
                 cmd := "set_lighting_effect"; arg := e |} in
     run.1 = device c /\ calls run.2 = calls w ++ [c]).
Proof.
  intros run.
  assert (Hframe : EFFECT_MAPPING_V1 run.2 = EFFECT_MAPPING_V1 w /\
                   objects run.2 = objects w).
  { subst run. unfold set_effect, requires_update.
    destruct (updated self) eqn:Hup; [|done].
    unfold mbind, M_bind, bind, get_state.
    destruct (EFFECT_MAPPING_V1 w !! name) as [l|]; [|done].
    simpl. unfold set_custom_effect, requires_update. rewrite Hup.
    by destruct (has_effects self). }
  destruct Hframe as [Hmap Hobj].
  split; [done|]. split; [done|]. split.
  - intros n. unfold catalog_entry. by rewrite Hmap, Hobj.
  - intros Hup Heff e He c. subst run c.
    unfold catalog_entry in He.
    destruct (EFFECT_MAPPING_V1 w !! name) as [l|] eqn:Hl; [|done].
    simpl in He.
    unfold set_effect, requires_update. rewrite Hup.
    unfold mbind, M_bind, bind, get_state. rewrite Hl. simpl.
    unfold set_custom_effect, requires_update. rewrite Hup, Heff. simpl.
    by rewrite He.
Qed.

Lemma set_effect_without_overrides_keeps_catalog_witness :
  let aurora : effect :=
    {[ "name" := VStr "Aurora"; "brightness" := VInt 100 ]} in
  let w := {| EFFECT_MAPPING_V1 := {[ "Aurora" := 1%positive ]};
              objects := {[ 1%positive := aurora ]}; calls := [] |} in
  let strip := {| updated := true; has_effects := true |} in
  let run := set_effect (fun _ => Ok tt) strip "Aurora" VNone VNone w in
  run.1 = Ok tt /\
  calls run.2 = [ {| target := "smartlife.iot.lighting_effect";
                     cmd := "set_lighting_effect"; arg := aurora |} ].
Proof.
  intros aurora w strip run.
  exact (proj2 (proj2 (proj2
           (set_effect_without_overrides_keeps_catalog (fun _ => Ok tt) strip
              "Aurora" w))) eq_refl eq_refl aurora eq_refl).
Defined.

(** X19: [set_effect] on a device that was never updated, or with a name
    that is not in the catalog, raises and leaves everything as it was,
    the overrides included: no effect object is written and no call is
    made. *)
Theorem set_effect_refused_leaves_world
    (device : call -> result unit) (self : t) (name : string)
    (brightness transition : value) (w : world) :
  (updated self = false ->
   set_effect device self name brightness transition w
   = (Raise (KasaException "You need to await update() to access the data"),
      w)) /\
  (updated self = true -> EFFECT_MAPPING_V1 w !! name = None ->
   set_effect device self name brightness transition w
   = (Raise (KasaException
               ("The effect " +:+ name +:+ " is not a built in effect.")), w)).
Proof.
  unfold set_effect, requires_update. split.
  - by intros ->.
  - intros -> Hname. unfold mbind, M_bind, bind, get_state. by rewrite Hname.
Qed.

Lemma set_effect_refused_leaves_world_witness :
  let w := {| EFFECT_MAPPING_V1 := {[ "Aurora" := 1%positive ]};
              objects := {[ 1%positive := {[ "brightness" := VInt 100 ]} ]};
              calls := [] |} in
  set_effect (fun _ => Ok tt) {| updated := true; has_effects := true |}
    "Disco" (VInt 50) VNone w
  = (Raise (KasaException "The effect Disco is not a built in effect."), w) /\
  set_effect (fun _ => Ok tt) {| updated := false; has_effects := true |}
    "Aurora" (VInt 50) VNone w
  = (Raise (KasaException "You need to await update() to access the data"), w).
Proof.
  intros w. split.
  - exact (proj2 (set_effect_refused_leaves_world (fun _ => Ok tt)
                    {| updated := true; has_effects := true |}
                    "Disco" (VInt 50) VNone w) eq_refl eq_refl).
  - exact (proj1 (set_effect_refused_leaves_world (fun _ => Ok tt)
                    {| updated := false; has_effects := true |}
                    "Aurora" (VInt 50) VNone w) eq_refl).
Defined.

Lemma alter_insert_object (objs : gmap loc effect) (l : loc) (e : effect)
    (k : string) (v : value) :
  objs !! l = Some e ->
  alter (insert k v) l objs = <[l := <[k := v]> e]> objs.
Proof.
  intros H. apply map_eq. intros l'.
  rewrite lookup_alter, lookup_insert.
  case_decide as Hl; [subst; by rewrite H|done].
Qed.

(** X20: what [set_effect] writes.  On an updated device and a
    recognized name bound to the object [l] with content [e], the call
    leaves the catalog's bindings alone and changes the store in one
    place only: the object [l] now holds [e] with [brightness] and
    [transition] replaced by the overrides that were given, every other
    field and every other object being as before.  That holds also when
    the device has no effects: the call is then refused with the
    capability error and nothing is sent, but the object has been written.
    With effects, the written content is what is sent. *)
Theorem set_effect_writes_only_overrides
    (device : call -> result unit) (self : t) (name : string)
    (brightness transition : value) (w : world) (l : loc) (e : effect) :
  updated self = true ->
  EFFECT_MAPPING_V1 w !! name = Some l ->
  objects w !! l = Some e ->
  let e1 := if is_none brightness then e else <["brightness" := brightness]> e in
  let e2 := if is_none transition then e1 else <["transition" := transition]> e1 in
  let c := {| target := "smartlife.iot.lighting_effect";
              cmd := "set_lighting_effect"; arg := e2 |} in
  let run := set_effect device self name brightness transition w in
  EFFECT_MAPPING_V1 run.2 = EFFECT_MAPPING_V1 w /\
  objects run.2 = <[l := e2]> (objects w) /\
  (forall k, k <> "brightness" -> k <> "transition" -> e2 !! k = e !! k) /\
  (has_effects self = true ->
   run.1 = device c /\ calls run.2 = calls w ++ [c]) /\
  (has_effects self = false ->
   run.1 = Raise (KasaException "Bulb does not support effects.") /\
   calls run.2 = calls w).
Proof.
  intros Hup Hname Hobj e1 e2 c run.
  assert (He2 : forall k, k <> "brightness" -> k <> "transition" ->
                          e2 !! k = e !! k).
  { intros k Hb Ht. subst e2 e1.
    destruct (is_none transition), (is_none brightness);
      by rewrite ?lookup_insert_ne by done. }
  set (w1 := if is_none brightness then w
             else set_objects w (<[l := e1]> (objects w))).
  set (w2 := set_objects w (<[l := e2]> (objects w))).
  assert (Hw1 : objects w1 !! l = Some e1).
  { subst w1 e1. destruct (is_none brightness); [done|].
    simpl. by rewrite lookup_insert_eq. }
  assert (Hrun : run = set_custom_effect device self l w2).
  { subst run. unfold set_effect, requires_update. rewrite Hup.
    unfold mbind, M_bind, bind, get_state. rewrite Hname.
    assert (Hstep1 : (if negb (is_none brightness)
                      then setitem l "brightness" brightness else ret tt) w
                     = (Ok tt, w1)).
    { subst w1 e1. destruct (is_none brightness); simpl; [done|].
      unfold setitem, modify. by rewrite (alter_insert_object _ _ e). }
    rewrite Hstep1.
    assert (Hstep2 : (if negb (is_none transition)
                      then setitem l "transition" transition else ret tt) w1
                     = (Ok tt, w2)).
    { subst w2 e2. destruct (is_none transition); simpl.
      - f_equal. subst w1 e1. destruct (is_none brightness); simpl; [|done].
        unfold set_objects. destruct w; simpl in *. f_equal.
        symmetry. by apply insert_id.
      - unfold setitem, modify. rewrite (alter_insert_object _ _ e1) by done.
        f_equal. subst w1 e1. destruct (is_none brightness); simpl; [done|].
        unfold set_objects. simpl. f_equal. apply insert_insert_eq. }
    by rewrite Hstep2. }
  rewrite Hrun.
  destruct (set_custom_effect_frame device self l w2) as (Hmap & Hobjs & Hyes & Hno).
  split; [by rewrite Hmap|]. split; [by rewrite Hobjs|]. split; [done|].
  split.
  - intros Heff. destruct (Hyes Hup Heff) as [H1 H2].
    subst w2 c. simpl in *. rewrite lookup_insert_eq in H1, H2. done.
  - intros Heff. by destruct (Hno Hup Heff) as [-> ->].
Qed.

(** X20 on a strip without effects: the call is refused and nothing is
    sent, yet "Aurora" now has brightness 50 and transition 200, its name
    untouched. *)
Lemma set_effect_writes_only_overrides_witness :
  let aurora : effect :=
    {[ "name" := VStr "Aurora"; "brightness" := VInt 100;
       "transition" := VInt 1500 ]} in
  let w := {| EFFECT_MAPPING_V1 := {[ "Aurora" := 1%positive ]};
              objects := {[ 1%positive := aurora ]}; calls := [] |} in
  let strip := {| updated := true; has_effects := false |} in
  let run := set_effect (fun _ => Ok tt) strip "Aurora" (VInt 50) (VInt 200) w in
  run.1 = Raise (KasaException "Bulb does not support effects.") /\
  calls run.2 = [] /\
  objects run.2
  = <[1%positive := <["transition" := VInt 200]>
                      (<["brightness" := VInt 50]> aurora)]> (objects w).
Proof.
  intros aurora w strip run.
  destruct (set_effect_writes_only_overrides (fun _ => Ok tt) strip "Aurora"
              (VInt 50) (VInt 200) w 1%positive aurora eq_refl eq_refl eq_refl)
    as (_ & Hobj & _ & _ & Hno).
  destruct (Hno eq_refl) as [Hr Hc].
  split; [exact Hr|]. split; [exact Hc|exact Hobj].
Defined.

End Effects_more.
